(** * The numerical core of the 2theta fitting tool (SSRF BL12SW)

    A shallow embedding of the data layer of [2theta_SSRF_250403_final.py]:
    the [Dataset] class, ROI bookkeeping ([on_press], [on_motion],
    [on_release], [clear_all]), the energy calibration
    ([adjust_energy_axis]), the peak fitting loop ([fit_peaks]), the 2theta
    calibration ([calibrate_2theta]) and the import ([import_data]); then
    what the result table and the plot read from a dataset
    ([update_result_table], [plot_data]), the two exports ([export_data],
    [export_calibration]) and the calibration table saved on closing and
    restored at start-up ([closeEvent], [restore_saved_values]).

    Numbers.  A Python [float] and a NumPy [float64] are IEEE 754 binary64
    values; they are modelled by Rocq's primitive [float], whose operations
    are the binary64 ones (round to nearest even).  Comparisons with a NaN
    are false, as in Python.

    Widgets, drawing and dialogs are left out: the message boxes a handler
    opens are kept as the [message] it returns, a file dialog as the file
    name it returns, everything else that only draws is dropped.  The
    ['rect'] handle [plot_data] stores in a region is a display primitive
    and is not part of the region record.

    Two things of the display decide what a handler writes and are kept.
    The ['rect'] handle of [current_roi]: [on_motion] and [on_release] call
    [remove()] on it, which raises on a Rectangle that was removed before,
    and a handler that raises stops where it is.  And whether the redraw
    returns or raises, in the two handlers where something depends on it:
    [on_release] redraws between the append and the reset of the selection,
    [import_data] inside its [try], after the dataset is stored.  In the
    other handlers the display calls come after the last write, so what
    they store does not depend on the display; the message given for them
    is the one shown when the display returns. *)

From Stdlib Require Import String.
From Stdlib Require Import List ZArith Floats Bool Arith Lia.
Import ListNotations.

Set Warnings "-inexact-float".

Open Scope float_scope.

(** ** Python and NumPy primitives *)

(** [HC_KEV_ANGSTROM = 12.39842] (line 21). *)
Definition HC_KEV_ANGSTROM : float := 12.39842.

(** Python's [min(a, b)] and [max(a, b)] on two arguments: the first one is
    kept unless the second is strictly smaller (resp. larger). *)
Definition py_min (a b : float) : float := if b <? a then b else a.
Definition py_max (a b : float) : float := if a <? b then b else a.

(** Division of two Python floats raises [ZeroDivisionError] on a zero
    divisor (of either sign); [None] stands for the exception. *)
Definition py_div (x y : float) : option float :=
  if y =? 0 then None else Some (x / y).

(** [x ** 2] on a float64 array: NumPy's power takes the square fast path.
    The scalar squares of [gaussian_with_baseline] are written with it too;
    their last bit may depend on the C library's [pow], and no statement
    below depends on it. *)
Definition pow2 (x : float) : float := x * x.

Definition float_of_nat (n : nat) : float :=
  PrimFloat.of_uint63 (Uint63.of_Z (Z.of_nat n)).

(** One-dimensional arrays are lists; a two-dimensional array is the list of
    its rows. *)
Definition array1 : Type := list float.
Definition array2 : Type := list (list float).

(** [a[:, j]].  Every array stored in a dataset has at least two columns
    (see [import_array]), so the default value is never reached for
    [j < 2]. *)
Definition column (j : nat) (a : array2) : array1 :=
  map (fun row => nth j row nan) a.

(** [np.column_stack((xs, ys))] for two vectors of the same length. *)
Definition column_stack (xs ys : array1) : array2 :=
  map (fun p => [fst p; snd p]) (combine xs ys).

(** [np.any(mask)]. *)
Definition np_any (mask : list bool) : bool := existsb (fun b => b) mask.

(** Boolean-mask indexing [a[mask]]. *)
Definition select {A : Type} (mask : list bool) (a : list A) : list A :=
  map snd (filter fst (combine mask a)).

(** [np.argmax]: index of the first maximum, a NaN counting as maximal
    (the scan stops at the first NaN). *)
Fixpoint argmax_from (mp : float) (mi i : nat) (l : array1) : nat :=
  match l with
  | [] => mi
  | x :: rest =>
      if is_nan mp then mi
      else if negb (x <=? mp) then argmax_from x i (S i) rest
      else argmax_from mp mi (S i) rest
  end.

Definition np_argmax (l : array1) : nat :=
  match l with
  | [] => 0%nat
  | x :: rest => argmax_from x 0 1 rest
  end.

(** [np.min]: the minimum, NaN propagating. *)
Definition np_minimum (a b : float) : float :=
  if (a <? b) || is_nan a then a else b.

Definition np_min (l : array1) : float :=
  match l with
  | [] => nan
  | x :: rest => fold_left np_minimum rest x
  end.

(** [np.zeros((5, 5))]. *)
Definition np_zeros (n m : nat) : array2 := repeat (repeat 0 m) n.

(** ** Data model *)

(** A region of interest, the dict appended by [on_release] (lines 809-814). *)
Record roi : Type := mkRoi {
  x_min : float;
  x_max : float;
  width : float;
  color : string
}.

(** The five parameters [a, x0, sigma, b, c] of the peak model. *)
Record params5 : Type := mkParams {
  p_a : float;
  p_x0 : float;
  p_sigma : float;
  p_b : float;
  p_c : float
}.

(** A fit result, the dict appended by [fit_peaks] (lines 885-891 and
    896-902). *)
Record fit_result : Type := mkFit {
  params : params5;
  cov : array2;
  fwhm : float;
  integral : float;
  r_squared : float
}.

(** [class Dataset] (lines 23-35). *)
Record Dataset : Type := mkDataset {
  filename : option string;
  raw_data : option array2;
  adjusted_data : option array2;
  fit_results : list fit_result;
  selected_regions : list roi;
  x_axis_adjusted : bool
}.

(** [Dataset.__init__]: [adjusted_data] is [np.copy(raw_data)]. *)
Definition Dataset_init (fname : option string) (raw : option array2) : Dataset :=
  mkDataset fname raw raw [] [] false.

(** The value under ['rect'] in [self.current_roi]: [None] after a press
    (line 760); the Rectangle a move has put on the axes (line 784), on
    which [remove()] has not been called; or that Rectangle after its
    [remove()], which stays in the dict when the move ends outside the axes
    (lines 769-773).  [remove()] returns on the second and raises on the
    third; a redraw of the figure does not change this. *)
Inductive rect_handle : Type :=
  | NoRect
  | Live
  | Stale.

(** The ROI being dragged, [self.current_roi] (lines 757-761, 774, 784). *)
Record pending_roi : Type := mkPending {
  cur_x_min : float;
  cur_y_min : float;
  cur_width : option float;
  cur_rect : rect_handle
}.

(** Lines 769-770 and 799-800 when they return: a handle on the axes is
    removed and stays in the dict. *)
Definition removed (handle : rect_handle) : rect_handle :=
  match handle with
  | Live => Stale
  | _ => handle
  end.

(** Whether the display calls of a handler return or raise. *)
Inductive drawing : Type :=
  | Drawn
  | DrawingRaises.

(** The stored 2theta calibration: [self.calib_params] and the numbers shown
    in the status label (line 1004). *)
Record calibration : Type := mkCalibration {
  avg_2theta : float;
  std_2theta : float;
  constant_used : float;
  n_pairs : nat
}.

(** The part of [XRDDataAnalyzer] the core reads and writes. *)
Record XRDDataAnalyzer : Type := mkAnalyzer {
  datasets : list Dataset;
  current_dataset_index : Z;
  calib_params : option calibration;
  calibrated : bool;
  region_selection_active : bool;
  current_roi : option pending_roi
}.

(** [XRDDataAnalyzer.__init__] (lines 82-94). *)
Definition analyzer_init : XRDDataAnalyzer :=
  mkAnalyzer [] (-1)%Z None false false None.

(** [self.colors] (lines 87-90). *)
Definition colors : list string :=
  ["#1f77b4"; "#ff7f0e"; "#2ca02c"; "#d62728"; "#9467bd";
   "#8c564b"; "#e377c2"; "#7f7f7f"; "#bcbd22"; "#17becf"]%string.

(** What a handler reports: nothing, a [QMessageBox.warning], a
    [QMessageBox.critical], or an exception it does not catch. *)
Inductive message : Type :=
  | NoMessage
  | MsgWarning (text : string)
  | MsgCritical (text : string)
  | Uncaught (exception : string).

(** ** The active dataset *)

(** The [current_dataset] property (lines 104-108). *)
Definition current_dataset (s : XRDDataAnalyzer) : option Dataset :=
  let i := current_dataset_index s in
  if ((0 <=? i) && (i <? Z.of_nat (length (datasets s))))%Z
  then nth_error (datasets s) (Z.to_nat i)
  else None.

(** Handlers mutate the active [Dataset] object in place; in the model the
    object at the active index is replaced by its new value. *)
Fixpoint list_set {A : Type} (l : list A) (i : nat) (x : A) : list A :=
  match l, i with
  | [], _ => []
  | _ :: t, O => x :: t
  | h :: t, S j => h :: list_set t j x
  end.

Definition set_datasets (s : XRDDataAnalyzer) (ds : list Dataset) : XRDDataAnalyzer :=
  mkAnalyzer ds (current_dataset_index s) (calib_params s) (calibrated s)
             (region_selection_active s) (current_roi s).

Definition set_current_dataset (s : XRDDataAnalyzer) (d : Dataset) : XRDDataAnalyzer :=
  set_datasets s (list_set (datasets s) (Z.to_nat (current_dataset_index s)) d).

Definition set_selection (s : XRDDataAnalyzer) (active : bool)
    (cur : option pending_roi) : XRDDataAnalyzer :=
  mkAnalyzer (datasets s) (current_dataset_index s) (calib_params s)
             (calibrated s) active cur.

Definition set_regions (d : Dataset) (rs : list roi) : Dataset :=
  mkDataset (filename d) (raw_data d) (adjusted_data d) (fit_results d) rs
            (x_axis_adjusted d).

Definition set_fit_results (d : Dataset) (fs : list fit_result) : Dataset :=
  mkDataset (filename d) (raw_data d) (adjusted_data d) fs (selected_regions d)
            (x_axis_adjusted d).

Definition set_adjusted (d : Dataset) (a : array2) : Dataset :=
  mkDataset (filename d) (raw_data d) (Some a) (fit_results d)
            (selected_regions d) true.

(** [on_dataset_changed] (lines 518-529). *)
Definition on_dataset_changed (s : XRDDataAnalyzer) (index : Z) : XRDDataAnalyzer :=
  if ((0 <=? index) && (index <? Z.of_nat (length (datasets s))))%Z
  then mkAnalyzer (datasets s) index (calib_params s) (calibrated s)
                  (region_selection_active s) (current_roi s)
  else s.

(** ** ROI manager *)

(** A mouse event: outside the plot axes ([event.inaxes != self.ax]), or
    inside them with its data coordinates. *)
Inductive mouse_event : Type :=
  | Outside
  | InAxes (xdata ydata : float).

(** [toggle_roi_selection] (lines 742-749). *)
Definition toggle_roi_selection (s : XRDDataAnalyzer) (active : bool) : XRDDataAnalyzer :=
  if active then set_selection s true (current_roi s)
  else set_selection s false None.

(** [on_press] (lines 751-761). *)
Definition on_press (s : XRDDataAnalyzer) (event : mouse_event) : XRDDataAnalyzer :=
  if negb (region_selection_active s) then s
  else match event with
       | Outside => s
       | InAxes xdata ydata =>
           set_selection s (region_selection_active s)
                         (Some (mkPending xdata ydata None NoRect))
       end.

(** [on_motion] (lines 763-785).  The handle is removed first (line 770),
    which raises when it was removed before: the handler then ends there and
    writes nothing.  Inside the axes the width is written and the new
    Rectangle stored; outside them the removed Rectangle stays in the
    dict. *)
Definition on_motion (s : XRDDataAnalyzer) (event : mouse_event) : XRDDataAnalyzer :=
  if negb (region_selection_active s) then s
  else match current_roi s with
       | None => s
       | Some cur =>
           match cur_rect cur, event with
           | Stale, _ => s
           | _, InAxes xdata _ =>
               set_selection s (region_selection_active s)
                 (Some (mkPending (cur_x_min cur) (cur_y_min cur)
                                  (Some (py_max 0.001 (xdata - cur_x_min cur)))
                                  Live))
           | Live, Outside =>
               set_selection s (region_selection_active s)
                 (Some (mkPending (cur_x_min cur) (cur_y_min cur) (cur_width cur)
                                  Stale))
           | NoRect, Outside => s
           end
       end.

(** The region committed by a release at [xdata] of a drag started at
    [x_start], when the dataset already holds [n] regions
    (lines 794-796 and 805-814). *)
Definition new_region (x_start xdata : float) (n : nat) : roi :=
  let xmin := py_min x_start xdata in
  let xmax := py_max x_start xdata in
  let w := abs (xmax - xmin) in
  let color_idx := (n mod length colors)%nat in
  mkRoi xmin xmax w (nth color_idx colors ""%string).

(** [on_release] (lines 787-824); [plot] says whether the [plot_data] of
    line 817 returns.  Past the threshold the handle is removed first
    (line 800), which raises when it was removed before: the handler then
    ends there, before the append, and keeps the drag and the selection
    mode.  When [plot_data] raises, the region is appended but lines
    819-824 do not run: the selection mode stays on and the drag stays, with
    its handle removed. *)
Definition on_release (s : XRDDataAnalyzer) (event : mouse_event) (plot : drawing)
    : XRDDataAnalyzer :=
  if negb (region_selection_active s) then s
  else match current_roi s with
       | None => s
       | Some cur =>
           match event with
           | InAxes xdata _ =>
               if 0.001 <? abs (xdata - cur_x_min cur) then
                 match cur_rect cur with
                 | Stale => s
                 | handle =>
                     match current_dataset s with
                     | Some dataset =>
                         let region :=
                           new_region (cur_x_min cur) xdata
                                      (length (selected_regions dataset)) in
                         let dataset' :=
                           set_regions dataset
                                       (selected_regions dataset ++ [region]) in
                         match plot with
                         | Drawn =>
                             set_selection (set_current_dataset s dataset')
                                           false None
                         | DrawingRaises =>
                             set_selection (set_current_dataset s dataset')
                               (region_selection_active s)
                               (Some (mkPending (cur_x_min cur) (cur_y_min cur)
                                                (cur_width cur) (removed handle)))
                         end
                     | None => set_selection s (region_selection_active s) None
                     end
                 end
               else set_selection s (region_selection_active s) None
           | Outside => set_selection s (region_selection_active s) None
           end
       end.

(** [clear_all] (lines 908-932). *)
Definition clear_all (s : XRDDataAnalyzer) : XRDDataAnalyzer :=
  match current_dataset s with
  | None => s
  | Some dataset =>
      set_current_dataset s (set_fit_results (set_regions dataset []) [])
  end.

(** ** Energy calibration *)

(** [E = a*Ch**2 + b*Ch + c] (line 953), for one channel. *)
Definition energy (a b c ch : float) : float := a * pow2 ch + b * ch + c.

(** [adjust_energy_axis] (lines 934-964).  The three arguments are the
    results of [float(...)] on the texts of the coefficient fields, [None]
    when it raises [ValueError]. *)
Definition adjust_energy_axis (s : XRDDataAnalyzer) (a b c : option float)
    : XRDDataAnalyzer * message :=
  match current_dataset s with
  | None => (s, MsgWarning "No data loaded for calibration")
  | Some dataset =>
      match raw_data dataset with
      | None => (s, MsgWarning "No data loaded for calibration")
      | Some raw =>
          match a, b, c with
          | Some a, Some b, Some c =>
              let channels := column 0 raw in
              let counts := column 1 raw in
              let energies := map (energy a b c) channels in
              let dataset' := set_adjusted dataset (column_stack energies counts) in
              (clear_all (set_current_dataset s dataset'), NoMessage)
          | _, _, _ => (s, MsgCritical "Invalid calibration parameters")
          end
      end
  end.

(** ** Library functions taken as parameters

    The transcendental functions, NumPy's reduction [np.sum] (whose order of
    summation is NumPy's own), [np.linspace], SciPy's [simps] and the
    solver [curve_fit] are not part of the repository: the core is
    parameterized by them.  None of them modifies its arguments.
    [curve_fit] is applied to [gaussian_with_baseline]; it returns [None]
    when it raises (no convergence within [maxfev=5000], a guess outside the
    bounds, a numerical error), and the optimal parameters with their
    covariance otherwise.  [np.arcsin] never raises: outside [-1, 1] it
    returns NaN with a [RuntimeWarning]. *)
Class Library : Type := mkLibrary {
  np_exp : float -> float;
  np_log : float -> float;
  np_arcsin : float -> float;
  np_degrees : float -> float;
  np_sum : array1 -> float;
  np_linspace : float -> float -> nat -> array1;
  simps : array1 -> array1 -> float;
  curve_fit :
    array1 -> array1 -> params5 -> params5 * params5 -> option (params5 * array2)
}.

Section Core.

Context {lib : Library}.

(** [np.mean] and [np.std] (default [ddof=0]) as NumPy computes them from
    its sum reduction. *)
Definition np_mean (l : array1) : float :=
  np_sum l / float_of_nat (length l).

Definition np_std (l : array1) : float :=
  let arrmean := np_sum l / float_of_nat (length l) in
  let x := map (fun v => v - arrmean) l in
  sqrt (np_sum (map (fun v => v * v) x) / float_of_nat (length l)).

(** ** Peak fitter *)

(** [gaussian_with_baseline] (lines 641-643). *)
Definition gaussian_with_baseline (x : float) (p : params5) : float :=
  p_a p * np_exp (- (pow2 (x - p_x0 p)) / (2 * pow2 (p_sigma p)))
  + p_b p * x + p_c p.

(** The mask of line 843, for one sample. *)
Definition in_roi (r : roi) (x : float) : bool :=
  (x_min r <=? x) && (x <=? x_max r).

(** The initial guess [p0] (lines 851-860). *)
Definition initial_guess (r : roi) (roi_x roi_y : array1) : params5 :=
  let peak_idx := np_argmax roi_y in
  let a_guess := nth peak_idx roi_y nan in
  let x0_guess := nth peak_idx roi_x nan in
  let sigma_guess := (x_max r - x_min r) / 6 in
  mkParams a_guess x0_guess sigma_guess 0 (np_min roi_y).

(** The box constraints (lines 861-862). *)
Definition fit_bounds (r : roi) : params5 * params5 :=
  (mkParams 0 (x_min r) 0 neg_infinity neg_infinity,
   mkParams infinity (x_max r) (x_max r - x_min r) infinity infinity).

(** The metrics of a converged fit (lines 869-891). *)
Definition fit_metrics (r : roi) (roi_x roi_y : array1) (popt : params5)
    (pcov : array2) : fit_result :=
  let y_fit := map (fun x => gaussian_with_baseline x popt) roi_x in
  let ss_res := np_sum (map (fun p => pow2 (fst p - snd p)) (combine roi_y y_fit)) in
  let ss_tot := np_sum (map (fun y => pow2 (y - np_mean roi_y)) roi_y) in
  let r2 := 1 - ss_res / ss_tot in
  let w := 2 * sqrt (2 * np_log 2) * p_sigma popt in
  let x_fine := np_linspace (x_min r) (x_max r) 1000 in
  let gaussian :=
    map (fun x => p_a popt
                  * np_exp (- (pow2 (x - p_x0 popt)) / (2 * pow2 (p_sigma popt))))
        x_fine in
  mkFit popt pcov w (simps gaussian x_fine) r2.

(** The dummy result of the [except] branch (lines 896-902). *)
Definition dummy_result (p0 : params5) : fit_result :=
  mkFit p0 (np_zeros 5 5) 0 0 0.

(** The [try]/[except] of lines 864-902: the one result appended for a
    region with samples [roi_x], [roi_y]. *)
Definition fit_region (r : roi) (roi_x roi_y : array1) : fit_result :=
  let p0 := initial_guess r roi_x roi_y in
  match curve_fit roi_x roi_y p0 (fit_bounds r) with
  | Some (popt, pcov) => fit_metrics r roi_x roi_y popt pcov
  | None => dummy_result p0
  end.

(** The loop of lines 841-902 over the regions, [results] being
    [dataset.fit_results] as built so far. *)
Fixpoint fit_loop (x_data y_data : array1) (regions : list roi)
    (results : list fit_result) : list fit_result :=
  match regions with
  | [] => results
  | r :: rest =>
      let mask := map (in_roi r) x_data in
      if negb (np_any mask) then fit_loop x_data y_data rest results
      else
        let roi_x := select mask x_data in
        let roi_y := select mask y_data in
        fit_loop x_data y_data rest (results ++ [fit_region r roi_x roi_y])
  end.

(** The series the fit and the plot read (line 834). *)
Definition current_series (d : Dataset) : option array2 :=
  if x_axis_adjusted d then adjusted_data d else raw_data d.

(** [fit_peaks] (lines 826-906).  A dataset without data makes line 835
    raise before anything is written; import never creates one. *)
Definition fit_peaks (s : XRDDataAnalyzer) : XRDDataAnalyzer * message :=
  match current_dataset s with
  | None => (s, MsgWarning "No regions selected for fitting")
  | Some dataset =>
      match selected_regions dataset with
      | [] => (s, MsgWarning "No regions selected for fitting")
      | _ :: _ =>
          match current_series dataset with
          | None => (s, Uncaught "TypeError")
          | Some data =>
              let x_data := column 0 data in
              let y_data := column 1 data in
              let results := fit_loop x_data y_data (selected_regions dataset) [] in
              (set_current_dataset s (set_fit_results dataset results), NoMessage)
          end
      end
  end.

(** ** 2theta calibrator *)

(** A cell of the calibration table as the handler sees it: no item at all
    ([item(row, col)] is [None]), an item with empty text, an item whose text
    [float()] rejects with [ValueError], or an item whose text [float()]
    reads as [value]. *)
Inductive cell : Type :=
  | NoItem
  | Blank
  | NonNumeric (text : string)
  | Number (value : float).

Record table_row : Type := mkRow {
  d_item : cell;
  e_item : cell;
  remarks_item : cell
}.

(** [item and item.text()]. *)
Definition has_text (c : cell) : bool :=
  match c with
  | NoItem | Blank => false
  | NonNumeric _ | Number _ => true
  end.

(** [float(item.text())]. *)
Definition py_float (c : cell) : option float :=
  match c with
  | Number v => Some v
  | _ => None
  end.

(** The collection loop of lines 969-980. *)
Fixpoint collect_pairs (rows : list table_row) (pairs : list (float * float))
    : list (float * float) :=
  match rows with
  | [] => pairs
  | row :: rest =>
      if has_text (d_item row) && has_text (e_item row) then
        match py_float (d_item row) with
        | Some d =>
            match py_float (e_item row) with
            | Some E => collect_pairs rest (pairs ++ [(d, E)])
            | None => collect_pairs rest pairs
            end
        | None => collect_pairs rest pairs
        end
      else collect_pairs rest pairs
  end.

(** Line 992, for one pair; [None] when the division raises. *)
Definition twotheta_deg (d E : float) : option float :=
  match py_div HC_KEV_ANGSTROM (2 * d * E) with
  | Some ratio => Some (2 * np_degrees (np_arcsin ratio))
  | None => None
  end.

(** The loop of lines 990-993; [None] when a pair raises. *)
Fixpoint twotheta_loop (pairs : list (float * float)) (twotheta_values : array1)
    : option array1 :=
  match pairs with
  | [] => Some twotheta_values
  | (d, E) :: rest =>
      match twotheta_deg d E with
      | Some v => twotheta_loop rest (twotheta_values ++ [v])
      | None => None
      end
  end.

(** [calibrate_2theta] (lines 966-1009). *)
Definition calibrate_2theta (s : XRDDataAnalyzer) (rows : list table_row)
    : XRDDataAnalyzer * message :=
  let pairs := collect_pairs rows [] in
  match pairs with
  | [] => (s, MsgWarning "Need at least 1 d-E pair for calibration")
  | _ :: _ =>
      match twotheta_loop pairs [] with
      | Some twotheta_values =>
          let avg := np_mean twotheta_values in
          let std := np_std twotheta_values in
          (mkAnalyzer (datasets s) (current_dataset_index s)
                      (Some (mkCalibration avg std HC_KEV_ANGSTROM (length pairs)))
                      true (region_selection_active s) (current_roi s),
           NoMessage)
      | None => (s, MsgCritical "Calibration failed: float division by zero")
      end
  end.

(** ** Import *)

(** The value of [np.loadtxt(filename)] (default [ndmin=0]) on a file whose
    data lines hold the given numbers: the rows-by-columns array with its
    axes of length one squeezed out, so a single row or a single column
    comes back one-dimensional, a single number zero-dimensional and an
    empty file as an empty vector.  [None] when the lines do not all have
    the same number of columns ([ValueError]). *)
Inductive ndarray : Type :=
  | Arr0 (v : float)
  | Arr1 (v : array1)
  | Arr2 (rows : array2) (ncols : nat).

Definition ncols_of (table : array2) : nat :=
  match table with
  | [] => 0
  | row :: _ => length row
  end.

Definition rectangular (table : array2) : bool :=
  forallb (fun row => length row =? ncols_of table)%nat table.

Definition np_loadtxt (table : array2) : option ndarray :=
  if negb (rectangular table) then None
  else match table with
       | [] => Some (Arr1 [])
       | [row] => match row with
                  | [v] => Some (Arr0 v)
                  | _ => Some (Arr1 row)
                  end
       | _ => if (ncols_of table =? 1)%nat then Some (Arr1 (column 0 table))
              else Some (Arr2 table (ncols_of table))
       end.

Definition ndim (a : ndarray) : nat :=
  match a with
  | Arr0 _ => 0
  | Arr1 _ => 1
  | Arr2 _ _ => 2
  end.

(** Lines 1159-1170 on the loaded array: the shape check, the removal of the
    last row and the new dataset, which becomes the active one.  [inr] is
    the message of the [ValueError] raised at line 1160. *)
Definition import_array (s : XRDDataAnalyzer) (fname : string) (a : ndarray)
    : XRDDataAnalyzer + string :=
  match a with
  | Arr2 rows ncols =>
      if (ncols <? 2)%nat then inr "Data requires at least 2 columns"%string
      else
        let raw := if (0 <? length rows)%nat then removelast rows else rows in
        let dataset := Dataset_init (Some fname) (Some raw) in
        let ds := datasets s ++ [dataset] in
        inl (mkAnalyzer ds (Z.of_nat (length ds) - 1)%Z (calib_params s)
                        (calibrated s) (region_selection_active s) (current_roi s))
  | _ => inr "Data requires at least 2 columns"%string
  end.

(** What the handler shows once the dataset is stored: the display calls
    of lines 1177-1179 run inside the [try], so when one of them raises the
    critical box opens although the dataset stays (the text of the error is
    abridged). *)
Definition shown_after_import (display : drawing) : message :=
  match display with
  | Drawn => NoMessage
  | DrawingRaises => MsgCritical "Data loading failed: the display raised"
  end.

(** [import_data] (lines 1146-1183) once a file has been chosen: the
    analyzer it leaves, and the message box it shows for either outcome of
    its display calls.  An exception of [np.loadtxt] or of the shape check
    comes before any write and ends in the critical box (the text of
    NumPy's own error is abridged); what is stored does not depend on the
    display. *)
Definition import_data (s : XRDDataAnalyzer) (fname : string) (table : array2)
    : XRDDataAnalyzer * (drawing -> message) :=
  match np_loadtxt table with
  | None =>
      (s, fun _ => MsgCritical "Data loading failed: the number of columns changed")
  | Some a =>
      match import_array s fname a with
      | inl s' => (s', shown_after_import)
      | inr msg => (s, fun _ => MsgCritical ("Data loading failed: " ++ msg))
      end
  end.

(** ** The handlers as a transition system *)

(** The user actions that reach the core, with what they supply: the chosen
    file and the numbers on its data lines, the mouse event, the results of
    reading the three coefficient fields, the rows of the calibration
    table. *)
Inductive op : Type :=
  | OpImport (fname : string) (table : array2)
  | OpSelectDataset (index : Z)
  | OpToggleRoi (active : bool)
  | OpPress (event : mouse_event)
  | OpMotion (event : mouse_event)
  | OpRelease (event : mouse_event) (plot : drawing)
  | OpFit
  | OpClearAll
  | OpAdjustEnergy (a b c : option float)
  | OpCalibrate (rows : list table_row).

Definition step (s : XRDDataAnalyzer) (o : op) : XRDDataAnalyzer :=
  match o with
  | OpImport fname table => fst (import_data s fname table)
  | OpSelectDataset index => on_dataset_changed s index
  | OpToggleRoi active => toggle_roi_selection s active
  | OpPress event => on_press s event
  | OpMotion event => on_motion s event
  | OpRelease event plot => on_release s event plot
  | OpFit => fst (fit_peaks s)
  | OpClearAll => clear_all s
  | OpAdjustEnergy a b c => fst (adjust_energy_axis s a b c)
  | OpCalibrate rows => fst (calibrate_2theta s rows)
  end.

Definition run (s : XRDDataAnalyzer) (ops : list op) : XRDDataAnalyzer :=
  fold_left step ops s.

Definition is_import (o : op) : bool :=
  match o with
  | OpImport _ _ => true
  | _ => false
  end.

(** ** Notions used in the statements *)

(** A region selects at least one sample of the series with x-column
    [x_data]. *)
Definition has_samples (x_data : array1) (r : roi) : bool :=
  np_any (map (in_roi r) x_data).

(** The result recorded for a region that has samples. *)
Definition result_of (x_data y_data : array1) (r : roi) : fit_result :=
  let mask := map (in_roi r) x_data in
  fit_region r (select mask x_data) (select mask y_data).

(** The complete pairs of a calibration table: the rows whose d and E cells
    both hold a number, in table order. *)
Definition complete_pairs (rows : list table_row) : list (float * float) :=
  flat_map (fun row =>
              match d_item row, e_item row with
              | Number d, Number E => [(d, E)]
              | _, _ => []
              end) rows.

(** The per-pair angle when nothing raises. *)
Definition bragg_2theta (p : float * float) : float :=
  2 * np_degrees (np_arcsin (HC_KEV_ANGSTROM / (2 * fst p * snd p))).

(** Fit results never outnumber regions. *)
Definition results_within_regions (d : Dataset) : Prop :=
  (length (fit_results d) <= length (selected_regions d))%nat.

(** The failure of an import: the critical box whatever the display does,
    nothing stored. *)
Definition import_fails (s : XRDDataAnalyzer)
    (r : XRDDataAnalyzer * (drawing -> message)) : Prop :=
  fst r = s /\ forall display, exists text, snd r display = MsgCritical text.

(** The analyzer after a successful import of [table]. *)
Definition imported (s : XRDDataAnalyzer) (fname : string) (table : array2)
    : XRDDataAnalyzer :=
  let ds := datasets s ++ [Dataset_init (Some fname) (Some (removelast table))] in
  mkAnalyzer ds (Z.of_nat (length ds) - 1)%Z (calib_params s) (calibrated s)
             (region_selection_active s) (current_roi s).

(** ** Sample inputs

    A five-line, two-column file, the analyzer after its import, and the
    analyzer during and after ROI drags on it; they serve as concrete
    inputs below. *)
Definition sample_table : array2 :=
  [[1; 10]; [2; 30]; [3; 20]; [4; 5]; [5; 0]].

Definition sample_raw : array2 :=
  [[1; 10]; [2; 30]; [3; 20]; [4; 5]].

Definition sample_dataset : Dataset :=
  Dataset_init (Some "spectrum.txt"%string) (Some sample_raw).

Definition sample_analyzer : XRDDataAnalyzer :=
  fst (import_data analyzer_init "spectrum.txt" sample_table).

(** A drag started at x = 1.5. *)
Definition sample_dragging : XRDDataAnalyzer :=
  on_press (toggle_roi_selection sample_analyzer true) (InAxes 1.5 0).

(** The region from 1.5 to 3.5, which holds the samples at 2 and 3, and the
    region from 1.2 to 1.8, which holds none. *)
Definition sample_region : roi := new_region 1.5 3.5 0.
Definition sample_empty_region : roi := new_region 1.2 1.8 0.

(** The analyzer after the drag from 1.2 to 1.8 and then the drag from 1.5
    to 3.5. *)
Definition sample_two_regions : XRDDataAnalyzer :=
  let s1 := on_press (toggle_roi_selection sample_analyzer true) (InAxes 1.2 0) in
  let s2 := on_release s1 (InAxes 1.8 0) Drawn in
  let s3 := on_press (toggle_roi_selection s2 true) (InAxes 1.5 0) in
  on_release s3 (InAxes 3.5 0) Drawn.

(** Calibration tables: one complete pair among incomplete rows; no complete
    pair; a pair outside the arcsine domain; a pair with a zero spacing. *)
Definition sample_rows : list table_row :=
  [mkRow (Number 2.1065) (Number 5.9) Blank;
   mkRow Blank (Number 1) NoItem;
   mkRow (NonNumeric "abc") (Number 2) NoItem].

Definition incomplete_rows : list table_row :=
  [mkRow Blank (Number 1) NoItem; mkRow (NonNumeric "abc") (Number 2) NoItem].

Definition out_of_domain_rows : list table_row :=
  [mkRow (Number 1) (Number 1) NoItem].

Definition zero_spacing_rows : list table_row :=
  [mkRow (Number 0) (Number 5.9) NoItem].

(** A library whose solver always raises. *)
Definition failing_solver : Library :=
  mkLibrary np_exp np_log np_arcsin np_degrees np_sum np_linspace simps
            (fun _ _ _ _ => None).

(** ** Result table and plot

    Of [update_result_table] and [plot_data] the model keeps what they read
    from the active dataset: which region each table row and each drawn
    item is made from, and which fit result.  Texts, fonts and colors of
    the widgets are left out. *)

(** One filled row of the result table (lines 565-593): the ROI number, the
    bounds and the color come from the region; the center
    ([result['params'][1]]), the FWHM, the integral and R² from the
    result. *)
Record table_line : Type := mkLine {
  line_number : nat;
  line_x_min : float;
  line_x_max : float;
  line_center : float;
  line_fwhm : float;
  line_integral : float;
  line_r_squared : float;
  line_color : string
}.

(** [for idx, (region, result) in enumerate(zip(regions, results))]
    (line 565), from index [idx] on. *)
Fixpoint table_lines (idx : nat) (regions : list roi) (results : list fit_result)
    : list table_line :=
  match regions, results with
  | region :: regions', result :: results' =>
      mkLine (idx + 1) (x_min region) (x_max region) (p_x0 (params result))
             (fwhm result) (integral result) (r_squared result) (color region)
      :: table_lines (S idx) regions' results'
  | _, _ => []
  end.

(** [update_result_table] (lines 553-593): the row count set on the table
    and the rows filled. *)
Definition update_result_table (s : XRDDataAnalyzer) : nat * list table_line :=
  match current_dataset s with
  | None => (0%nat, [])
  | Some dataset =>
      match fit_results dataset with
      | [] => (0%nat, [])
      | _ :: _ =>
          (length (fit_results dataset),
           table_lines 0 (selected_regions dataset) (fit_results dataset))
      end
  end.

(** What [plot_data] draws for a region (lines 687-729): a labelled box when
    the region counts as unfitted, the fit curve over the region's range
    with the center and FWHM of the result otherwise. *)
Inductive plot_item : Type :=
  | RegionBox (number : nat) (region : roi)
  | FitCurve (number : nat) (region : roi) (result : fit_result).

(** The loop of lines 687-729 from index [i] on: [is_fitted] is
    [i < len(dataset.fit_results)], in which case [dataset.fit_results[i]]
    exists. *)
Fixpoint plot_items (i : nat) (regions : list roi) (results : list fit_result)
    : list plot_item :=
  match regions with
  | [] => []
  | region :: rest =>
      match nth_error results i with
      | Some result => FitCurve (i + 1) region result
      | None => RegionBox (i + 1) region
      end :: plot_items (S i) rest results
  end.

(** What [plot_data] (lines 645-740) plots: the two columns of the current
    series, the items of the regions and the label of the x-axis; [None]
    when there is no dataset or no data. *)
Record plot : Type := mkPlot {
  plot_x : array1;
  plot_y : array1;
  plot_regions : list plot_item;
  plot_xlabel : string
}.

Definition plot_data (s : XRDDataAnalyzer) : option plot :=
  match current_dataset s with
  | None => None
  | Some dataset =>
      match current_series dataset with
      | None => None
      | Some data =>
          Some (mkPlot (column 0 data) (column 1 data)
                       (plot_items 0 (selected_regions dataset) (fit_results dataset))
                       (if x_axis_adjusted dataset then "Energy (keV)" else "Channel"))
      end
  end.

(** ** Export

    The handlers are modelled once the file dialog has returned [filename]
    (empty when the dialog is cancelled); the model keeps what is handed to
    the file, not its text, and takes the write itself to succeed. *)

(** [remarks_item.text() if remarks_item else ""] (line 1039). *)
Definition remarks_of (c : cell) : cell :=
  match c with
  | NoItem => Blank
  | _ => c
  end.

(** The loop of lines 1032-1040, which has no [try] of its own; [None] when
    a [float()] raises. *)
Fixpoint export_pairs (rows : list table_row) (d_e_pairs : list (float * float * cell))
    : option (list (float * float * cell)) :=
  match rows with
  | [] => Some d_e_pairs
  | row :: rest =>
      if has_text (d_item row) && has_text (e_item row) then
        match py_float (d_item row) with
        | Some d =>
            match py_float (e_item row) with
            | Some E =>
                export_pairs rest
                  (d_e_pairs ++ [(d, E, remarks_of (remarks_item row))])
            | None => None
            end
        | None => None
        end
      else export_pairs rest d_e_pairs
  end.

(** The calibration file: the status line, which shows the stored
    calibration, and the data lines. *)
Record calibration_file : Type := mkCalibrationFile {
  file_status : option calibration;
  file_pairs : list (float * float * cell)
}.

(** [export_calibration] (lines 1011-1053); the text of Python's error is
    abridged. *)
Definition export_calibration (s : XRDDataAnalyzer) (fname : string)
    (rows : list table_row) : message * option calibration_file :=
  if negb (calibrated s) then
    (MsgWarning "No calibration data available", None)
  else if (fname =? "")%string then (NoMessage, None)
  else match export_pairs rows [] with
       | Some d_e_pairs =>
           (NoMessage, Some (mkCalibrationFile (calib_params s) d_e_pairs))
       | None =>
           (MsgCritical "Export failed: could not convert string to float", None)
       end.

(** [export_data] (lines 1055-1082): the array handed to [np.savetxt]. *)
Definition export_data (s : XRDDataAnalyzer) (fname : string)
    : message * option array2 :=
  match current_dataset s with
  | None => (MsgWarning "No data available for export", None)
  | Some dataset =>
      match adjusted_data dataset with
      | None => (MsgWarning "No data available for export", None)
      | Some adjusted =>
          if (fname =? "")%string then (NoMessage, None)
          else (NoMessage, Some adjusted)
      end
  end.

(** ** Saved calibration table

    [closeEvent] and [restore_saved_values] handle the texts of the
    calibration table, not their values: a cell is [None] when it has no
    item and its text otherwise. *)
Record text_row : Type := mkTextRow {
  d_text : option string;
  e_text : option string;
  remarks_text : option string
}.

(** The dict saved for a row, with its keys ['d'], ['e'] and ['remarks'],
    each present or not. *)
Record saved_row : Type := mkSaved {
  saved_d : option string;
  saved_e : option string;
  saved_remarks : option string
}.

(** [item and item.text()]: the text, when there is one and it is not
    empty. *)
Definition text_of (c : option string) : option string :=
  match c with
  | Some text => if (text =? "")%string then None else Some text
  | None => None
  end.

(** [if row_data:], on the dict built from a row. *)
Definition has_data (row_data : saved_row) : bool :=
  match saved_d row_data, saved_e row_data, saved_remarks row_data with
  | None, None, None => false
  | _, _, _ => true
  end.

(** The loop of [closeEvent] over the table (lines 1124-1139). *)
Fixpoint save_calib_table (rows : list text_row) (calib_data : list saved_row)
    : list saved_row :=
  match rows with
  | [] => calib_data
  | row :: rest =>
      let row_data :=
        mkSaved (text_of (d_text row)) (text_of (e_text row))
                (text_of (remarks_text row)) in
      if has_data row_data then save_calib_table rest (calib_data ++ [row_data])
      else save_calib_table rest calib_data
  end.

(** Lines 634-639: the items set from one saved dict. *)
Definition set_items (row : text_row) (row_data : saved_row) : text_row :=
  mkTextRow
    (match saved_d row_data with Some text => Some text | None => d_text row end)
    (match saved_e row_data with Some text => Some text | None => e_text row end)
    (match saved_remarks row_data with
     | Some text => Some text
     | None => remarks_text row
     end).

(** The loop of lines 630-639, which stops at the last row of the table. *)
Fixpoint fill_rows (table : list text_row) (calib_data : list saved_row)
    : list text_row :=
  match table, calib_data with
  | row :: table', row_data :: rest => set_items row row_data :: fill_rows table' rest
  | _, _ => table
  end.

(** The calibration table after [restore_saved_values] (lines 620-639):
    [saved] is the value stored under ["calib_table/data"], [None] when the
    settings do not contain the key. *)
Definition restore_calib_table (table : list text_row)
    (saved : option (list saved_row)) : list text_row :=
  match saved with
  | None => table
  | Some calib_data =>
      let cleared :=
        map (fun _ => mkTextRow (Some "") (Some "") (Some ""))%string table in
      fill_rows cleared calib_data
  end.

(** How the calibration handlers see a cell, [float_of_text] being Python's
    [float] on a text ([None] when it raises). *)
Definition read_cell (float_of_text : string -> option float) (c : option string)
    : cell :=
  match c with
  | None => NoItem
  | Some text =>
      if (text =? "")%string then Blank
      else match float_of_text text with
           | Some value => Number value
           | None => NonNumeric text
           end
  end.

Definition read_row (float_of_text : string -> option float) (row : text_row)
    : table_row :=
  mkRow (read_cell float_of_text (d_text row)) (read_cell float_of_text (e_text row))
        (read_cell float_of_text (remarks_text row)).

(** ** What a handler does to the active dataset *)

(** The four ways a handler rewrites the active dataset: a committed region
    ([on_release]), a fit ([fit_peaks]), a clearing ([clear_all]) and an
    energy calibration ([adjust_energy_axis]). *)
Inductive dataset_update (d : Dataset) : Dataset -> Prop :=
  | update_region (x_start xdata : float) :
      (0.001 <? abs (xdata - x_start)) = true ->
      dataset_update d
        (set_regions d
           (selected_regions d
            ++ [new_region x_start xdata (length (selected_regions d))]))
  | update_fit (data : array2) :
      current_series d = Some data ->
      selected_regions d <> [] ->
      dataset_update d
        (set_fit_results d
           (fit_loop (column 0 data) (column 1 data) (selected_regions d) []))
  | update_clear :
      dataset_update d (set_fit_results (set_regions d []) [])
  | update_calibration (raw : array2) (a b c : float) :
      raw_data d = Some raw ->
      dataset_update d
        (set_fit_results
           (set_regions
              (set_adjusted d
                 (column_stack (map (energy a b c) (column 0 raw)) (column 1 raw)))
              [])
           []).

(** Mouse handlers only. *)
Definition is_mouse (o : op) : bool :=
  match o with
  | OpPress _ | OpMotion _ | OpRelease _ _ => true
  | _ => false
  end.

Definition is_calibrate (o : op) : bool :=
  match o with
  | OpCalibrate _ => true
  | _ => false
  end.

(** The active index is that of a dataset, or -1 while there is none. *)
Definition active_index_ok (s : XRDDataAnalyzer) : Prop :=
  (datasets s = [] /\ current_dataset_index s = (-1)%Z) \/
  (0 <= current_dataset_index s < Z.of_nat (length (datasets s)))%Z.

(** The regions of a dataset carry the palette colors in turn. *)
Definition colors_in_turn (regions : list roi) : Prop :=
  forall i r, nth_error regions i = Some r ->
              color r = nth (i mod 10) colors ""%string.

(** A region has its bounds in order and their difference as width. *)
Definition region_ok (r : roi) : Prop :=
  (x_min r <? x_max r) = true /\ width r = x_max r - x_min r.

(** The series of a dataset: a raw table of at least one row, all rows of
    the same length, at least two; an adjusted table with as many rows,
    each of at least two entries. *)
Definition dataset_shape (d : Dataset) : Prop :=
  exists raw adjusted ncols,
    raw_data d = Some raw /\ adjusted_data d = Some adjusted /\
    raw <> [] /\ (2 <= ncols)%nat /\
    Forall (fun row => length row = ncols) raw /\
    length adjusted = length raw /\
    Forall (fun row => (2 <= length row)%nat) adjusted.

(** ** Notions used in the further statements *)

(** The data lines of the calibration file when no [float()] raises: one per
    complete pair, with its remarks. *)
Definition exported_lines (rows : list table_row) : list (float * float * cell) :=
  flat_map (fun row =>
              match d_item row, e_item row with
              | Number d, Number E => [(d, E, remarks_of (remarks_item row))]
              | _, _ => []
              end) rows.

(** The dict [closeEvent] builds from a row, and whether it is saved. *)
Definition saved_of (row : text_row) : saved_row :=
  mkSaved (text_of (d_text row)) (text_of (e_text row)) (text_of (remarks_text row)).

Definition kept (row : text_row) : bool := has_data (saved_of row).

(** A saved row as the table shows it after [restore_saved_values]: every
    cell has an item, empty where the row had no text. *)
Definition shown_text (c : option string) : option string :=
  match text_of c with
  | Some text => Some text
  | None => Some ""%string
  end.

Definition restored_row (row : text_row) : text_row :=
  mkTextRow (shown_text (d_text row)) (shown_text (e_text row))
            (shown_text (remarks_text row)).

Definition blank_row : text_row :=
  mkTextRow (Some ""%string) (Some ""%string) (Some ""%string).

(** ** Further sample inputs *)

(** The sample analyzer with two regions after the import of a second
    file, which becomes the active dataset. *)
Definition sample_two_datasets : XRDDataAnalyzer :=
  fst (import_data sample_two_regions "second.txt" sample_table).

(** A calibration table whose rows with text in both cells hold numbers. *)
Definition numeric_rows : list table_row :=
  [mkRow (Number 2.1065) (Number 5.9) (NonNumeric "MgO_200");
   mkRow Blank (Number 1) NoItem;
   mkRow (Number 1.4895) (Number 8.2) NoItem].

(** The calibration table as [init_ui] builds it (lines 316-322): nine rows,
    the d and remarks cells of the first two filled. *)
Definition default_calib_table : list text_row :=
  mkTextRow (Some "2.1065"%string) None (Some "MgO_200"%string)
  :: mkTextRow (Some "1.4895"%string) None (Some "MgO_220"%string)
  :: repeat (mkTextRow None None None) 7.

(** A table as a user may leave it: the first row emptied, the second
    completed, a pair entered in the fifth row. *)
Definition sample_calib_table : list text_row :=
  [mkTextRow (Some ""%string) None (Some ""%string);
   mkTextRow (Some "1.4895"%string) (Some "8.2"%string) (Some "MgO_220"%string);
   mkTextRow None None None;
   mkTextRow None None None;
   mkTextRow (Some "2.1065"%string) (Some "5.9"%string) None;
   mkTextRow None None None;
   mkTextRow None None None;
   mkTextRow None None None;
   mkTextRow None None None].

(** * Properties *)

(** ** Facts on binary64 comparison and subtraction

    These follow from the specification of the primitive operations in terms
    of [spec_float] ([FloatAxioms]). *)

(** [SFcompare] compares mantissas with [Pos.compare_cont Eq], which is
    [Pos.compare]. *)
Ltac fold_pos_compare :=
  repeat match goal with
         | |- context [Pos.compare_cont Eq ?a ?b] =>
             change (Pos.compare_cont Eq a b) with (Pos.compare a b)
         | H : context [Pos.compare_cont Eq ?a ?b] |- _ =>
             change (Pos.compare_cont Eq a b) with (Pos.compare a b) in H
         end.

(** Swapping the arguments of a comparison reverses its result. *)
Lemma SFcompare_antisym (x y : spec_float) :
  SFcompare y x = option_map CompOpp (SFcompare x y).
Proof.
  destruct x as [sx|sx| |sx mx ex], y as [sy|sy| |sy my ey]; simpl;
    try reflexivity;
    try (destruct sx; reflexivity); try (destruct sy; reflexivity);
    try (destruct sx, sy; reflexivity).
  destruct sx, sy; simpl; try reflexivity;
    rewrite (Z.compare_antisym ex ey);
    destruct (ex ?= ey)%Z; simpl; try reflexivity;
    fold_pos_compare; rewrite (Pos.compare_antisym mx my);
    destruct (mx ?= my)%positive; reflexivity.
Qed.

(** [<] is asymmetric. *)
Lemma ltb_asym (x y : float) : (x <? y) = true -> (y <? x) = false.
Proof.
  rewrite !FloatAxioms.ltb_spec. unfold SFltb.
  rewrite (SFcompare_antisym (Prim2SF x) (Prim2SF y)).
  destruct (SFcompare (Prim2SF x) (Prim2SF y)) as [[]|]; simpl; congruence.
Qed.

(** [x <= y] excludes [y < x]. *)
Lemma leb_not_ltb (x y : float) : (x <=? y) = true -> (y <? x) = false.
Proof.
  rewrite FloatAxioms.ltb_spec, FloatAxioms.leb_spec. unfold SFltb, SFleb.
  rewrite (SFcompare_antisym (Prim2SF x) (Prim2SF y)).
  destruct (SFcompare (Prim2SF x) (Prim2SF y)) as [[]|]; simpl; congruence.
Qed.

(** A positive number lies between the powers of two given by its number of
    binary digits. *)
Lemma digits2_pos_bounds (m : positive) :
  (2 ^ (Zpos (digits2_pos m) - 1) <= Zpos m < 2 ^ Zpos (digits2_pos m))%Z.
Proof.
  induction m as [p IH|p IH|]; simpl digits2_pos.
  - rewrite Pos2Z.inj_succ.
    replace (Z.succ (Zpos (digits2_pos p)) - 1)%Z with (Z.succ (Zpos (digits2_pos p) - 1))%Z by lia.
    rewrite !Z.pow_succ_r by lia. lia.
  - rewrite Pos2Z.inj_succ.
    replace (Z.succ (Zpos (digits2_pos p)) - 1)%Z with (Z.succ (Zpos (digits2_pos p) - 1))%Z by lia.
    rewrite !Z.pow_succ_r by lia. lia.
  - simpl. lia.
Qed.

(** Appending [d] zero bits multiplies by [2^d]. *)
Lemma iter_xO_value (d m : positive) :
  Zpos (Pos.iter xO m d) = (Zpos m * 2 ^ Zpos d)%Z.
Proof.
  induction d as [|d IH] using Pos.peano_ind.
  - simpl. lia.
  - rewrite Pos.iter_succ, Pos2Z.inj_succ, Z.pow_succ_r by lia.
    rewrite Pos2Z.inj_xO, IH. lia.
Qed.

(** Aligning a mantissa to a smaller exponent keeps its value. *)
Lemma shl_align_value (m : positive) (e e' : Z) :
  (e' <= e)%Z -> Zpos (fst (shl_align m e e')) = (Zpos m * 2 ^ (e - e'))%Z.
Proof.
  intros Hle. unfold shl_align.
  destruct (e' - e)%Z as [|d|d] eqn:Hd; simpl.
  - replace (e - e')%Z with 0%Z by lia. rewrite Z.pow_0_r. lia.
  - lia.
  - rewrite iter_xO_value. replace (e - e')%Z with (Zpos d) by lia. reflexivity.
Qed.

(** Rounding a positive integer never yields a negative float. *)
Lemma SFabs_binary_round (m : positive) (e : Z) :
  SFabs (binary_round prec emax false m e) = binary_round prec emax false m e.
Proof.
  unfold binary_round, binary_round_aux.
  destruct (shl_align m e _) as [mz ez].
  destruct (shr_fexp prec emax (Zpos mz) ez loc_Exact) as [mrs' e'].
  destruct (shr_fexp prec emax _ e' loc_Exact) as [mrs'' e''].
  destruct (shr_m mrs''); try reflexivity.
  destruct (e'' <=? emax - prec)%Z; reflexivity.
Qed.

(** Neither does normalizing a nonnegative integer. *)
Lemma SFabs_binary_normalize_pos (z e : Z) :
  (0 <= z)%Z ->
  SFabs (binary_normalize prec emax z e false) = binary_normalize prec emax z e false.
Proof.
  intros Hz. destruct z as [|p|p]; simpl; try reflexivity.
  - apply SFabs_binary_round.
  - lia.
Qed.

(** A canonical mantissa has at most [prec] digits, and exactly [prec] above
    the smallest exponent. *)
Lemma bounded_digits (m : positive) (e : Z) :
  bounded prec emax m e = true ->
  (Zpos (digits2_pos m) <= prec)%Z /\ (emin <= e)%Z /\
  (Zpos (digits2_pos m) = prec \/ e = emin).
Proof.
  unfold bounded, canonical_mantissa, fexp. intros H.
  apply andb_prop in H. destruct H as [H _]. apply Z.eqb_eq in H. lia.
Qed.

(** Between canonical mantissas, the larger exponent wins. *)
Lemma aligned_lt (m1 m2 : positive) (e1 e2 : Z) :
  bounded prec emax m1 e1 = true -> bounded prec emax m2 e2 = true ->
  (e1 < e2)%Z -> (Zpos m1 < Zpos m2 * 2 ^ (e2 - e1))%Z.
Proof.
  intros B1 B2 Hlt.
  destruct (bounded_digits _ _ B1) as (D1 & E1 & _).
  destruct (bounded_digits _ _ B2) as (D2 & E2 & C2).
  assert (Hd2 : Zpos (digits2_pos m2) = prec) by lia.
  pose proof (digits2_pos_bounds m1) as [_ U1].
  pose proof (digits2_pos_bounds m2) as [L2 _].
  rewrite Hd2 in L2.
  assert (P1 : (2 ^ Zpos (digits2_pos m1) <= 2 ^ prec)%Z)
    by (apply Z.pow_le_mono_r; lia).
  assert (P2 : (2 ^ 1 <= 2 ^ (e2 - e1))%Z) by (apply Z.pow_le_mono_r; lia).
  assert (P3 : (2 ^ prec = 2 ^ (prec - 1) * 2 ^ 1)%Z) by reflexivity.
  nia.
Qed.

(** The difference of the aligned mantissas of two finite floats, the larger
    one first, is positive. *)
Lemma aligned_diff_pos (mx my : positive) (ex ey : Z) :
  bounded prec emax mx ex = true -> bounded prec emax my ey = true ->
  ((ex ?= ey)%Z = Lt \/ ((ex ?= ey)%Z = Eq /\ (mx ?= my)%positive = Lt)) ->
  (Zpos (fst (shl_align mx ex (Z.min ey ex)))
   < Zpos (fst (shl_align my ey (Z.min ey ex))))%Z.
Proof.
  intros Bx By H.
  rewrite !shl_align_value by lia.
  destruct H as [H|[H1 H2]].
  - change (ex < ey)%Z in H.
    replace (Z.min ey ex) with ex by lia.
    rewrite Z.sub_diag, Z.pow_0_r, Z.mul_1_r.
    now apply aligned_lt.
  - apply Z.compare_eq_iff in H1. subst ey.
    assert (Hm : (Zpos mx < Zpos my)%Z) by exact H2.
    rewrite Z.min_id, Z.sub_diag, Z.pow_0_r. lia.
Qed.

(** Subtracting a float from a strictly larger one gives a float whose sign
    bit is clear (or a NaN): taking its absolute value changes nothing. *)
Lemma SFabs_sub_of_lt (X Y : spec_float) :
  valid_binary X = true -> valid_binary Y = true ->
  SFltb X Y = true ->
  SFabs (SF64sub Y X) = SF64sub Y X.
Proof.
  intros VX VY Hlt. unfold SFltb in Hlt.
  destruct X as [sx|sx| |sx mx ex], Y as [sy|sy| |sy my ey];
    simpl in Hlt; try discriminate;
    try (destruct sx; try discriminate; destruct sy; try discriminate; reflexivity);
    try (destruct sx; try discriminate; reflexivity);
    try (destruct sy; try discriminate; reflexivity).
  unfold SF64sub, SFsub. cbv zeta.
  apply SFabs_binary_normalize_pos.
  simpl in VX, VY.
  destruct sx; destruct sy; simpl in Hlt; try discriminate Hlt; unfold cond_Zopp.
  - (* both negative: the mantissa of [X] is the larger one *)
    fold_pos_compare.
    assert (H : (Zpos (fst (shl_align my ey (Z.min ex ey)))
                 < Zpos (fst (shl_align mx ex (Z.min ex ey))))%Z).
    { apply aligned_diff_pos; trivial.
      rewrite (Z.compare_antisym ex ey), (Pos.compare_antisym mx my).
      destruct (ex ?= ey)%Z; simpl in *; try discriminate; auto.
      destruct (mx ?= my)%positive; simpl in *; try discriminate; auto. }
    rewrite (Z.min_comm ey ex).
    generalize dependent (fst (shl_align my ey (Z.min ex ey))).
    generalize (fst (shl_align mx ex (Z.min ex ey))). intros; lia.
  - (* [X] negative, [Y] positive *)
    generalize (fst (shl_align my ey (Z.min ey ex))).
    generalize (fst (shl_align mx ex (Z.min ey ex))). intros; lia.
  - (* both positive: the mantissa of [Y] is the larger one *)
    fold_pos_compare.
    assert (H : (Zpos (fst (shl_align mx ex (Z.min ey ex)))
                 < Zpos (fst (shl_align my ey (Z.min ey ex))))%Z).
    { apply aligned_diff_pos; trivial.
      destruct (ex ?= ey)%Z; try discriminate; auto.
      destruct (mx ?= my)%positive; try discriminate; auto. }
    generalize dependent (fst (shl_align my ey (Z.min ey ex))).
    generalize (fst (shl_align mx ex (Z.min ey ex))). intros; lia.
Qed.

(** A float minus itself is [+0] or a NaN. *)
Lemma SFabs_sub_self (X : spec_float) :
  SFabs (SF64sub X X) = SF64sub X X.
Proof.
  destruct X as [s|s| |s m e]; try (destruct s; reflexivity); try reflexivity.
  unfold SF64sub, SFsub. cbv zeta. rewrite Z.sub_diag. reflexivity.
Qed.

(** The same two facts on primitive floats. *)
Lemma abs_sub_of_ltb (x y : float) :
  (x <? y) = true -> abs (y - x) = y - x.
Proof.
  intros H. rewrite FloatAxioms.ltb_spec in H.
  apply Prim2SF_inj. rewrite FloatAxioms.abs_spec, FloatAxioms.sub_spec.
  apply SFabs_sub_of_lt; auto using Prim2SF_valid.
Qed.

Lemma abs_sub_self (x : float) : abs (x - x) = x - x.
Proof.
  apply Prim2SF_inj. rewrite FloatAxioms.abs_spec, FloatAxioms.sub_spec. apply SFabs_sub_self.
Qed.

(** The width computed at line 796 is the plain difference. *)
Lemma abs_max_sub_min (s x : float) :
  abs (py_max s x - py_min s x) = py_max s x - py_min s x.
Proof.
  unfold py_max, py_min.
  destruct (s <? x) eqn:Hsx.
  - rewrite (ltb_asym _ _ Hsx). now apply abs_sub_of_ltb.
  - destruct (x <? s) eqn:Hxs.
    + now apply abs_sub_of_ltb.
    + apply abs_sub_self.
Qed.

(** Two numbers are always comparable. *)
Lemma SFcompare_numbers (X Y : spec_float) :
  X <> S754_nan -> Y <> S754_nan -> exists c, SFcompare X Y = Some c.
Proof.
  intros HX HY.
  destruct X as [sx|sx| |sx mx ex], Y as [sy|sy| |sy my ey];
    try congruence; simpl; eauto.
Qed.

(** [is_nan] recognizes exactly the NaN of the specification. *)
Lemma is_nan_Prim2SF (x : float) : is_nan x = false -> Prim2SF x <> S754_nan.
Proof.
  unfold is_nan. intros H E.
  apply negb_false_iff in H. rewrite FloatAxioms.eqb_spec, E in H. discriminate.
Qed.

(** Between numbers, "not below or equal" is "strictly above". *)
Lemma not_leb_ltb (x y : float) :
  is_nan x = false -> is_nan y = false ->
  (x <=? y) = false -> (y <? x) = true.
Proof.
  intros Nx Ny. rewrite FloatAxioms.leb_spec, FloatAxioms.ltb_spec. unfold SFleb, SFltb.
  rewrite (SFcompare_antisym (Prim2SF x) (Prim2SF y)).
  destruct (SFcompare_numbers _ _ (is_nan_Prim2SF _ Nx) (is_nan_Prim2SF _ Ny))
    as [c ->].
  destruct c; simpl; congruence.
Qed.

(** The absolute value of a number is a number. *)
Lemma is_nan_abs (x : float) : is_nan x = false -> is_nan (abs x) = false.
Proof.
  intros H. pose proof (is_nan_Prim2SF _ H) as N.
  unfold is_nan. apply negb_false_iff.
  rewrite FloatAxioms.eqb_spec, FloatAxioms.abs_spec. unfold SFeqb.
  destruct (Prim2SF x) as [s|s| |s m e]; simpl; try congruence.
  rewrite Z.compare_refl.
  change (Pos.compare_cont Eq m m) with (Pos.compare m m).
  now rewrite Pos.compare_refl.
Qed.

(** ** Lists and the active dataset *)

Lemma list_set_length {A : Type} (l : list A) (i : nat) (x : A) :
  length (list_set l i x) = length l.
Proof.
  revert i; induction l as [|h t IH]; intros [|i]; simpl; auto.
Qed.

Lemma nth_error_list_set {A : Type} (l : list A) (i : nat) (x : A) :
  (i < length l)%nat -> nth_error (list_set l i x) i = Some x.
Proof.
  revert i; induction l as [|h t IH]; intros [|i] H; simpl in *; try lia; auto.
  apply IH; lia.
Qed.

Lemma nth_error_list_set_other {A : Type} (l : list A) (i j : nat) (x : A) :
  i <> j -> nth_error (list_set l j x) i = nth_error l i.
Proof.
  revert i j; induction l as [|h t IH]; intros [|i] [|j] H; simpl; auto;
    try congruence.
Qed.

Lemma Forall_list_set {A : Type} (P : A -> Prop) (l : list A) (i : nat) (x : A) :
  Forall P l -> P x -> Forall P (list_set l i x).
Proof.
  intros HF Hx. revert i.
  induction HF as [|h t Hh Ht IH]; intros [|i]; simpl; auto.
Qed.

Lemma map_list_set {A B : Type} (f : A -> B) (l : list A) (i : nat) (x y : A) :
  nth_error l i = Some y -> f x = f y -> map f (list_set l i x) = map f l.
Proof.
  revert i; induction l as [|h t IH]; intros [|i] H E; simpl in *;
    try discriminate; auto.
  - injection H as ->. now rewrite E.
  - f_equal. now apply IH.
Qed.

Lemma current_dataset_nth (s : XRDDataAnalyzer) (d : Dataset) :
  current_dataset s = Some d ->
  nth_error (datasets s) (Z.to_nat (current_dataset_index s)) = Some d /\
  (Z.to_nat (current_dataset_index s) < length (datasets s))%nat.
Proof.
  unfold current_dataset. intros H.
  destruct ((0 <=? current_dataset_index s)
            && (current_dataset_index s <? Z.of_nat (length (datasets s))))%Z eqn:E;
    try discriminate.
  apply andb_prop in E. destruct E as [E1 E2].
  apply Z.leb_le in E1. apply Z.ltb_lt in E2. split; [assumption | lia].
Qed.

Lemma current_dataset_In (s : XRDDataAnalyzer) (d : Dataset) :
  current_dataset s = Some d -> In d (datasets s).
Proof.
  intros H. apply current_dataset_nth in H. destruct H as [H _].
  eapply nth_error_In; eauto.
Qed.

(** After the active dataset is written, it is what [current_dataset]
    returns. *)
Lemma current_dataset_set (s : XRDDataAnalyzer) (d d' : Dataset) :
  current_dataset s = Some d ->
  current_dataset (set_current_dataset s d') = Some d'.
Proof.
  intros H. pose proof (current_dataset_nth _ _ H) as [_ Hlt].
  unfold current_dataset in *. simpl. rewrite list_set_length.
  destruct ((0 <=? current_dataset_index s)
            && (current_dataset_index s <? Z.of_nat (length (datasets s))))%Z;
    try discriminate.
  now apply nth_error_list_set.
Qed.

Lemma map_fst_combine {A B : Type} (l : list A) (l' : list B) :
  length l = length l' -> map fst (combine l l') = l.
Proof.
  revert l'; induction l as [|h t IH]; intros [|h' t'] H; simpl in *;
    try discriminate; auto.
  f_equal. apply IH. lia.
Qed.

Lemma map_snd_combine {A B : Type} (l : list A) (l' : list B) :
  length l = length l' -> map snd (combine l l') = l'.
Proof.
  revert l'; induction l as [|h t IH]; intros [|h' t'] H; simpl in *;
    try discriminate; auto.
  f_equal. apply IH. lia.
Qed.

(** The two columns of [np.column_stack((xs, ys))] are [xs] and [ys]. *)
Lemma column_stack_columns (xs ys : array1) :
  length xs = length ys ->
  column 0 (column_stack xs ys) = xs /\ column 1 (column_stack xs ys) = ys.
Proof.
  intros H. unfold column, column_stack. rewrite !map_map. simpl.
  split; [now apply map_fst_combine | now apply map_snd_combine].
Qed.

(** [clear_all] on an analyzer whose active dataset has just been written. *)
Lemma clear_all_after_set (s : XRDDataAnalyzer) (d d' : Dataset) :
  current_dataset s = Some d ->
  current_dataset (clear_all (set_current_dataset s d'))
  = Some (set_fit_results (set_regions d' []) []).
Proof.
  intros H. pose proof (current_dataset_set _ _ d' H) as H'.
  unfold clear_all. rewrite H'.
  eapply current_dataset_set; eauto.
Qed.

(** ** Energy calibration *)

(** C1.  Applying the energy calibration with coefficients [a], [b], [c] to
    a dataset with raw series [raw] gives an adjusted series whose x-column
    is [a*ch*ch + b*ch + c] for each raw channel [ch], in order, and whose
    counts column is the raw counts column. *)
Theorem adjust_energy_axis_formula
    (s : XRDDataAnalyzer) (d : Dataset) (raw : array2) (a b c : float) :
  current_dataset s = Some d ->
  raw_data d = Some raw ->
  exists d' adj,
    current_dataset (fst (adjust_energy_axis s (Some a) (Some b) (Some c))) = Some d' /\
    adjusted_data d' = Some adj /\
    column 0 adj = map (fun ch => a * (ch * ch) + b * ch + c) (column 0 raw) /\
    column 1 adj = column 1 raw.
Proof.
  intros Hcur Hraw. unfold adjust_energy_axis. rewrite Hcur, Hraw. simpl fst.
  eexists. eexists. split.
  - eapply clear_all_after_set; eauto.
  - simpl. split; [reflexivity|].
    apply column_stack_columns. unfold column. now rewrite !length_map.
Qed.

(** C2.  After an energy calibration is applied the dataset has no ROI and no
    fit result, and its [x_axis_adjusted] flag is set, whatever it held
    before. *)
Theorem adjust_energy_axis_clears
    (s : XRDDataAnalyzer) (d : Dataset) (raw : array2) (a b c : float) :
  current_dataset s = Some d ->
  raw_data d = Some raw ->
  exists d',
    current_dataset (fst (adjust_energy_axis s (Some a) (Some b) (Some c))) = Some d' /\
    selected_regions d' = [] /\
    fit_results d' = [] /\
    x_axis_adjusted d' = true.
Proof.
  intros Hcur Hraw. unfold adjust_energy_axis. rewrite Hcur, Hraw. simpl fst.
  eexists. split.
  - eapply clear_all_after_set; eauto.
  - simpl. auto.
Qed.

(** ** ROI manager *)

(** The selection state does not touch the datasets. *)
Lemma current_dataset_set_selection
    (s : XRDDataAnalyzer) (active : bool) (cur : option pending_roi) :
  current_dataset (set_selection s active cur) = current_dataset s.
Proof. reflexivity. Qed.

(** The palette has ten colors. *)
Lemma colors_length : length colors = 10%nat.
Proof. reflexivity. Qed.

(** X18.  On a release at [xdata] of a drag started at [x_start] whose
    handle was not removed before: when [|xdata - x_start| <= 0.001] no
    region is created; otherwise (the difference being a number) the region
    with [x_min = min(x_start, xdata)], [x_max = max(x_start, xdata)],
    [width = x_max - x_min] and the palette color of index (number of
    regions so far) modulo 10 is appended to the regions of the active
    dataset, whether the redraw that follows returns or raises. *)
Theorem on_release_commit_live
    (s : XRDDataAnalyzer) (cur : pending_roi) (xdata ydata : float)
    (plot : drawing) :
  current_roi s = Some cur ->
  ((abs (xdata - cur_x_min cur) <=? 0.001) = true ->
   datasets (on_release s (InAxes xdata ydata) plot) = datasets s) /\
  (forall dataset,
     (abs (xdata - cur_x_min cur) <=? 0.001) = false ->
     is_nan (xdata - cur_x_min cur) = false ->
     region_selection_active s = true ->
     cur_rect cur <> Stale ->
     current_dataset s = Some dataset ->
     exists r,
       current_dataset (on_release s (InAxes xdata ydata) plot)
       = Some (set_regions dataset (selected_regions dataset ++ [r])) /\
       x_min r = py_min (cur_x_min cur) xdata /\
       x_max r = py_max (cur_x_min cur) xdata /\
       width r = x_max r - x_min r /\
       color r = nth (length (selected_regions dataset) mod 10) colors ""%string).
Proof.
  intros Hcur. split.
  - intros Hle. apply leb_not_ltb in Hle.
    unfold on_release. rewrite Hcur, Hle.
    destruct (region_selection_active s); reflexivity.
  - intros dataset Hgt Hnan Hact Hlive Hds.
    assert (Hlt : (0.001 <? abs (xdata - cur_x_min cur)) = true).
    { apply not_leb_ltb; auto using is_nan_abs. }
    assert (Hcommit :
      current_dataset (on_release s (InAxes xdata ydata) plot)
      = Some (set_regions dataset
                (selected_regions dataset
                 ++ [new_region (cur_x_min cur) xdata
                                (length (selected_regions dataset))]))).
    { unfold on_release. rewrite Hact, Hcur, Hlt, Hds. simpl negb. cbv iota.
      destruct (cur_rect cur); [| |congruence]; destruct plot;
        rewrite current_dataset_set_selection;
        eapply current_dataset_set; eauto. }
    eexists. split; [exact Hcommit|].
    unfold new_region. simpl. repeat split; try reflexivity.
    apply abs_max_sub_min.
Qed.

(** A move writes the pending drag at most. *)
Lemma on_motion_selection (s : XRDDataAnalyzer) (event : mouse_event) :
  exists cur',
    on_motion s event = set_selection s (region_selection_active s) cur'.
Proof.
  assert (Hs : s = set_selection s (region_selection_active s) (current_roi s))
    by (destruct s; reflexivity).
  unfold on_motion. destruct (negb _); [eauto|].
  destruct (current_roi s) as [cur|]; [|eauto].
  destruct (cur_rect cur), event; eauto.
Qed.

(** A release writes the selection state at most, or appends the region of
    the drag to the active dataset. *)
Lemma on_release_cases (s : XRDDataAnalyzer) (event : mouse_event) (plot : drawing) :
  (exists cur',
      on_release s event plot = set_selection s (region_selection_active s) cur') \/
  (exists cur x y d act cur',
      region_selection_active s = true /\
      current_roi s = Some cur /\ cur_rect cur <> Stale /\
      event = InAxes x y /\
      (0.001 <? abs (x - cur_x_min cur)) = true /\
      current_dataset s = Some d /\
      (plot = Drawn -> act = false /\ cur' = None) /\
      on_release s event plot
      = set_selection
          (set_current_dataset s
             (set_regions d
                (selected_regions d
                 ++ [new_region (cur_x_min cur) x (length (selected_regions d))])))
          act cur').
Proof.
  assert (Hs : s = set_selection s (region_selection_active s) (current_roi s))
    by (destruct s; reflexivity).
  unfold on_release.
  destruct (region_selection_active s) eqn:Hact; simpl negb; cbv iota; [|eauto].
  destruct (current_roi s) as [cur|] eqn:Hcur; [|eauto].
  destruct event as [|x y]; [eauto|].
  destruct (0.001 <? abs (x - cur_x_min cur)) eqn:Hlt; [|eauto].
  destruct (cur_rect cur) eqn:Hrect; [| |eauto];
    (destruct (current_dataset s) as [d|] eqn:Hd; [|eauto]);
    right; exists cur, x, y, d;
    (destruct plot; [exists false, None | eexists; eexists]);
    rewrite Hrect;
    do 6 (split; [first [assumption | reflexivity | discriminate]|]);
    (split; [intros H; try discriminate H; auto | reflexivity]).
Qed.

(** A move during a drag whose handle was removed before raises at line 770
    and writes nothing. *)
Lemma on_motion_stale (s : XRDDataAnalyzer) (cur : pending_roi) (event : mouse_event) :
  current_roi s = Some cur -> cur_rect cur = Stale -> on_motion s event = s.
Proof.
  intros Hcur Hst. unfold on_motion. rewrite Hcur, Hst.
  now destruct (negb _).
Qed.

(** A move inside the axes followed by a move outside them leaves a removed
    handle in the drag, which is otherwise as it was. *)
Lemma on_motion_leaves_stale
    (s : XRDDataAnalyzer) (cur : pending_roi) (xdata ydata : float) :
  region_selection_active s = true ->
  current_roi s = Some cur ->
  cur_rect cur <> Stale ->
  on_motion (on_motion s (InAxes xdata ydata)) Outside
  = set_selection s true
      (Some (mkPending (cur_x_min cur) (cur_y_min cur)
                       (Some (py_max 0.001 (xdata - cur_x_min cur))) Stale)).
Proof.
  intros Hact Hcur Hlive.
  assert (Hin : on_motion s (InAxes xdata ydata)
                = set_selection s true
                    (Some (mkPending (cur_x_min cur) (cur_y_min cur)
                             (Some (py_max 0.001 (xdata - cur_x_min cur))) Live))).
  { unfold on_motion. rewrite Hact, Hcur. simpl.
    destruct (cur_rect cur); [reflexivity | reflexivity | congruence]. }
  rewrite Hin. reflexivity.
Qed.

(** C7.  The claim fails on a drag that has left the axes.  After a move
    inside the axes and a move outside them, the Rectangle of the selection
    box is removed but stays in [current_roi]; a release back inside the
    axes, farther than 0.001 from the start, then raises on removing it
    again (line 800), before the append of line 809: no region is created
    although [|xdata - x_start| > 0.001], and the drag and the selection
    mode stay as they were, so that every later move and every later release
    past the threshold raises as well. *)
Theorem on_release_stale_handle
    (s : XRDDataAnalyzer) (cur : pending_roi) (x_move y_move xdata ydata : float)
    (plot : drawing) :
  region_selection_active s = true ->
  current_roi s = Some cur ->
  cur_rect cur <> Stale ->
  (abs (xdata - cur_x_min cur) <=? 0.001) = false ->
  is_nan (xdata - cur_x_min cur) = false ->
  let dragged := on_motion (on_motion s (InAxes x_move y_move)) Outside in
  on_release dragged (InAxes xdata ydata) plot = dragged /\
  datasets dragged = datasets s /\
  region_selection_active dragged = true /\
  (exists cur', current_roi dragged = Some cur' /\
                cur_x_min cur' = cur_x_min cur /\ cur_rect cur' = Stale) /\
  forall event, on_motion dragged event = dragged.
Proof.
  intros Hact Hcur Hlive Hgt Hnan dragged.
  assert (Hlt : (0.001 <? abs (xdata - cur_x_min cur)) = true).
  { apply not_leb_ltb; auto using is_nan_abs. }
  assert (Hd : dragged
               = set_selection s true
                   (Some (mkPending (cur_x_min cur) (cur_y_min cur)
                            (Some (py_max 0.001 (x_move - cur_x_min cur))) Stale)))
    by (apply on_motion_leaves_stale; assumption).
  rewrite Hd. split; [|split; [|split; [|split]]].
  - unfold on_release. simpl. now rewrite Hlt.
  - reflexivity.
  - reflexivity.
  - eexists. split; [reflexivity|]. split; reflexivity.
  - intros event. eapply on_motion_stale; reflexivity.
Qed.

(** ** Peak fitter *)

(** The loop only appends to the results built so far. *)
Lemma fit_loop_acc (x_data y_data : array1) (regions : list roi)
    (results : list fit_result) :
  fit_loop x_data y_data regions results
  = results ++ fit_loop x_data y_data regions [].
Proof.
  revert results; induction regions as [|r rest IH]; intros results; simpl.
  - now rewrite app_nil_r.
  - destruct (negb (np_any (map (in_roi r) x_data))).
    + apply IH.
    + rewrite IH, (IH [_]). now rewrite app_assoc.
Qed.

(** The loop over a concatenation is the concatenation of the loops: the
    fit of a region does not depend on the regions before it. *)
Lemma fit_loop_app (x_data y_data : array1) (pre post : list roi) :
  fit_loop x_data y_data (pre ++ post) []
  = fit_loop x_data y_data pre [] ++ fit_loop x_data y_data post [].
Proof.
  induction pre as [|r rest IH]; simpl; auto.
  destruct (negb (np_any (map (in_roi r) x_data))); auto.
  rewrite fit_loop_acc, IH, (fit_loop_acc _ _ rest [_]). now rewrite app_assoc.
Qed.

(** One result per region that has samples, in region order. *)
Lemma fit_loop_map_filter (x_data y_data : array1) (regions : list roi) :
  fit_loop x_data y_data regions []
  = map (result_of x_data y_data) (filter (has_samples x_data) regions).
Proof.
  induction regions as [|r rest IH]; simpl; auto.
  unfold has_samples at 1.
  destruct (np_any (map (in_roi r) x_data)); simpl; auto.
  rewrite fit_loop_acc, IH. reflexivity.
Qed.

Lemma fit_loop_length (x_data y_data : array1) (regions : list roi) :
  (length (fit_loop x_data y_data regions []) <= length regions)%nat.
Proof.
  rewrite fit_loop_map_filter, length_map. apply filter_length_le.
Qed.

Lemma has_samples_false (x_data : array1) (r : roi) :
  (forall x, In x x_data -> (x_min r <=? x) && (x <=? x_max r) = false) ->
  has_samples x_data r = false.
Proof.
  intros H. unfold has_samples, np_any.
  induction x_data as [|x rest IH]; simpl; auto.
  unfold in_roi at 1. rewrite (H x) by (now left). simpl.
  apply IH. intros y Hy. apply H. now right.
Qed.

(** What [fit_peaks] leaves in the active dataset. *)
Lemma fit_peaks_current (s : XRDDataAnalyzer) (d : Dataset) (data : array2) :
  current_dataset s = Some d ->
  selected_regions d <> [] ->
  current_series d = Some data ->
  current_dataset (fst (fit_peaks s))
  = Some (set_fit_results d
            (fit_loop (column 0 data) (column 1 data) (selected_regions d) [])).
Proof.
  intros Hcur Hreg Hdata. unfold fit_peaks. rewrite Hcur, Hdata.
  destruct (selected_regions d) as [|r rest]; [congruence|].
  cbn [fst]. eapply current_dataset_set; eauto.
Qed.

(** C5.  A region with at least one sample whose nonlinear fit fails gets,
    at its place in the result list, the placeholder made of the initial
    guess, a 5x5 zero covariance and [fwhm = integral = r_squared = 0]; and
    in every case the result list has exactly one entry per region that has
    at least one sample. *)
Theorem fit_failure_placeholder
    (x_data y_data : array1) (pre post : list roi) (r : roi) :
  has_samples x_data r = true ->
  curve_fit (select (map (in_roi r) x_data) x_data)
            (select (map (in_roi r) x_data) y_data)
            (initial_guess r (select (map (in_roi r) x_data) x_data)
                             (select (map (in_roi r) x_data) y_data))
            (fit_bounds r) = None ->
  fit_loop x_data y_data (pre ++ r :: post) []
  = fit_loop x_data y_data pre []
    ++ [mkFit (initial_guess r (select (map (in_roi r) x_data) x_data)
                               (select (map (in_roi r) x_data) y_data))
              (repeat (repeat 0 5) 5) 0 0 0]
    ++ fit_loop x_data y_data post [] /\
  forall regions,
    length (fit_loop x_data y_data regions [])
    = length (filter (has_samples x_data) regions).
Proof.
  intros Hs Hfail. split.
  - rewrite fit_loop_app. f_equal. simpl.
    unfold has_samples in Hs. rewrite Hs. simpl.
    rewrite fit_loop_acc. f_equal.
    unfold fit_region. rewrite Hfail. reflexivity.
  - intros regions. now rewrite fit_loop_map_filter, length_map.
Qed.

(** C6.  A region whose bounds select no sample of the current series is
    skipped by the fit: no result is appended for it, so there are fewer
    results than regions, and the results of the regions before and after it
    are those they get without it. *)
Theorem fit_skips_empty_region
    (s : XRDDataAnalyzer) (d : Dataset) (data : array2)
    (pre post : list roi) (r : roi) :
  current_dataset s = Some d ->
  current_series d = Some data ->
  selected_regions d = pre ++ r :: post ->
  (forall x, In x (column 0 data) -> (x_min r <=? x) && (x <=? x_max r) = false) ->
  exists d',
    current_dataset (fst (fit_peaks s)) = Some d' /\
    selected_regions d' = pre ++ r :: post /\
    fit_results d'
    = fit_loop (column 0 data) (column 1 data) pre []
      ++ fit_loop (column 0 data) (column 1 data) post [] /\
    (length (fit_results d') < length (selected_regions d'))%nat.
Proof.
  intros Hcur Hdata Hreg Hnone.
  apply has_samples_false in Hnone.
  assert (Hne : selected_regions d <> []).
  { rewrite Hreg. destruct pre; discriminate. }
  assert (Hfit : fit_loop (column 0 data) (column 1 data) (pre ++ r :: post) []
                 = fit_loop (column 0 data) (column 1 data) pre []
                   ++ fit_loop (column 0 data) (column 1 data) post []).
  { rewrite fit_loop_app. f_equal. simpl.
    unfold has_samples in Hnone. now rewrite Hnone. }
  eexists. split; [eapply fit_peaks_current; eauto|].
  simpl. rewrite Hreg, Hfit. repeat split.
  rewrite !length_app. simpl.
  pose proof (fit_loop_length (column 0 data) (column 1 data) pre).
  pose proof (fit_loop_length (column 0 data) (column 1 data) post).
  lia.
Qed.

(** ** Invariants of the handlers *)

Lemma Forall_set_current (P : Dataset -> Prop) (s : XRDDataAnalyzer) (d : Dataset) :
  Forall P (datasets s) -> P d -> Forall P (datasets (set_current_dataset s d)).
Proof.
  intros HF Hd. simpl. now apply Forall_list_set.
Qed.

Lemma clear_all_within (s : XRDDataAnalyzer) :
  Forall results_within_regions (datasets s) ->
  Forall results_within_regions (datasets (clear_all s)).
Proof.
  intros HF. unfold clear_all. destruct (current_dataset s); auto.
  apply Forall_set_current; auto. unfold results_within_regions. simpl. lia.
Qed.

(** Every handler keeps the fit results of each dataset within its
    regions. *)
Lemma step_within (s : XRDDataAnalyzer) (o : op) :
  Forall results_within_regions (datasets s) ->
  Forall results_within_regions (datasets (step s o)).
Proof.
  intros HF. destruct o as [fname table|index|active|ev|ev|ev plot| | |a b c|rows];
    simpl.
  - (* import *)
    unfold import_data. destruct (np_loadtxt table) as [arr|]; auto.
    unfold import_array. destruct arr as [v|v|rows nc]; auto.
    destruct (nc <? 2)%nat; auto. simpl.
    apply Forall_app. split; auto. constructor; auto.
    unfold results_within_regions. simpl. lia.
  - unfold on_dataset_changed. destruct (_ && _)%bool; auto.
  - unfold toggle_roi_selection. destruct active; auto.
  - unfold on_press. destruct (negb _); auto. destruct ev; auto.
  - unfold on_motion. destruct (negb _); auto.
    destruct (current_roi s) as [cur|]; auto.
    destruct (cur_rect cur), ev; auto.
  - (* release *)
    unfold on_release. destruct (negb _); auto.
    destruct (current_roi s) as [cur|]; auto. destruct ev as [|x y]; auto.
    destruct (0.001 <? _); auto.
    destruct (cur_rect cur); auto;
      (destruct (current_dataset s) as [d|] eqn:Hd; auto;
       destruct plot; unfold set_selection; cbn [datasets];
       apply Forall_set_current; auto;
       apply current_dataset_In in Hd;
       rewrite Forall_forall in HF; specialize (HF _ Hd);
       unfold results_within_regions in *; simpl; rewrite length_app; simpl; lia).
  - (* fit *)
    unfold fit_peaks. destruct (current_dataset s) as [d|]; auto.
    destruct (selected_regions d) as [|r rest] eqn:E; auto.
    destruct (current_series d) as [data|]; auto.
    cbn [fst]. apply Forall_set_current; auto.
    unfold results_within_regions. cbn [fit_results selected_regions set_fit_results].
    rewrite E. apply fit_loop_length.
  - now apply clear_all_within.
  - (* energy calibration *)
    unfold adjust_energy_axis. destruct (current_dataset s) as [d|] eqn:Hd; auto.
    destruct (raw_data d) as [raw|]; auto.
    destruct a as [a|]; auto. destruct b as [b|]; auto. destruct c as [c|]; auto.
    cbn [fst]. apply clear_all_within. apply Forall_set_current; auto.
    apply current_dataset_In in Hd.
    rewrite Forall_forall in HF. exact (HF _ Hd).
  - unfold calibrate_2theta. destruct (collect_pairs rows []); auto.
    destruct (twotheta_loop _ _); auto.
Qed.

Lemma run_within (ops : list op) (s : XRDDataAnalyzer) :
  Forall results_within_regions (datasets s) ->
  Forall results_within_regions (datasets (run s ops)).
Proof.
  revert s. unfold run.
  induction ops as [|o rest IH]; intros s HF; simpl; auto.
  apply IH. now apply step_within.
Qed.

(** C10.  Whatever sequence of imports, dataset selections, ROI drags, fits,
    clearings and calibrations is performed from start-up, no dataset ever
    has more fit results than regions; and a fit leaves, as i-th result, the
    result of the i-th region among those that select at least one
    sample. *)
Theorem fit_results_follow_regions :
  (forall ops, Forall results_within_regions (datasets (run analyzer_init ops))) /\
  (forall s d data,
     current_dataset s = Some d ->
     selected_regions d <> [] ->
     current_series d = Some data ->
     exists d',
       current_dataset (fst (fit_peaks s)) = Some d' /\
       selected_regions d' = selected_regions d /\
       fit_results d'
       = map (result_of (column 0 data) (column 1 data))
             (filter (has_samples (column 0 data)) (selected_regions d))).
Proof.
  split.
  - intros ops. apply run_within. constructor.
  - intros s d data Hcur Hne Hdata.
    eexists. split; [eapply fit_peaks_current; eauto|].
    simpl. split; [reflexivity | apply fit_loop_map_filter].
Qed.

(** Writing the active dataset without changing its raw series leaves every
    raw series as it was. *)
Lemma raw_set_current (s : XRDDataAnalyzer) (d d' : Dataset) :
  current_dataset s = Some d ->
  raw_data d' = raw_data d ->
  map raw_data (datasets (set_current_dataset s d')) = map raw_data (datasets s).
Proof.
  intros Hcur Hraw. apply current_dataset_nth in Hcur. destruct Hcur as [Hn _].
  simpl. eapply map_list_set; eauto.
Qed.

Lemma raw_clear_all (s : XRDDataAnalyzer) :
  map raw_data (datasets (clear_all s)) = map raw_data (datasets s).
Proof.
  unfold clear_all. destruct (current_dataset s) as [d|] eqn:Hd; auto.
  eapply raw_set_current; eauto.
Qed.

(** No handler other than the import touches a raw series. *)
Lemma step_raw (s : XRDDataAnalyzer) (o : op) :
  is_import o = false ->
  map raw_data (datasets (step s o)) = map raw_data (datasets s).
Proof.
  destruct o as [fname table|index|active|ev|ev|ev plot| | |a b c|rows];
    simpl; intros Hi; try discriminate.
  - unfold on_dataset_changed. destruct (_ && _)%bool; auto.
  - unfold toggle_roi_selection. destruct active; auto.
  - unfold on_press. destruct (negb _); auto. destruct ev; auto.
  - destruct (on_motion_selection s ev) as [c ->]. reflexivity.
  - destruct (on_release_cases s ev plot)
      as [(c & ->)|(cur & x & y & d & act & c & _ & _ & _ & _ & _ & Hd & _ & ->)];
      [reflexivity|].
    unfold set_selection; cbn [datasets].
    eapply raw_set_current; eauto.
  - unfold fit_peaks. destruct (current_dataset s) as [d|] eqn:Hd; auto.
    destruct (selected_regions d) as [|r rest]; auto.
    destruct (current_series d) as [data|]; auto.
    cbn [fst]. eapply raw_set_current; eauto.
  - apply raw_clear_all.
  - unfold adjust_energy_axis. destruct (current_dataset s) as [d|] eqn:Hd; auto.
    destruct (raw_data d) as [raw|] eqn:Hraw; auto.
    destruct a as [a|]; auto. destruct b as [b|]; auto. destruct c as [c|]; auto.
    cbn [fst]. rewrite raw_clear_all. eapply raw_set_current; eauto.
  - unfold calibrate_2theta. destruct (collect_pairs rows []); auto.
    destruct (twotheta_loop _ _); auto.
Qed.

(** An import adds at most one dataset, after the existing ones. *)
Lemma step_raw_prefix (s : XRDDataAnalyzer) (o : op) :
  exists imported,
    map raw_data (datasets (step s o)) = map raw_data (datasets s) ++ imported.
Proof.
  destruct (is_import o) eqn:Hi.
  - destruct o as [fname table| | | | | | | | | ]; try discriminate. simpl.
    unfold import_data. destruct (np_loadtxt table) as [arr|];
      [|exists []; now rewrite app_nil_r].
    unfold import_array. destruct arr as [v|v|rows nc];
      try (exists []; now rewrite app_nil_r).
    destruct (nc <? 2)%nat; [exists []; now rewrite app_nil_r|].
    simpl. rewrite map_app. eexists. reflexivity.
  - exists []. rewrite app_nil_r. now apply step_raw.
Qed.

(** The energy calibration writes the active dataset only. *)
Lemma adjust_energy_axis_others (s : XRDDataAnalyzer) (a b c : option float) (i : nat) :
  i <> Z.to_nat (current_dataset_index s) ->
  nth_error (datasets (fst (adjust_energy_axis s a b c))) i
  = nth_error (datasets s) i.
Proof.
  intros Hi. unfold adjust_energy_axis.
  destruct (current_dataset s) as [d|]; auto.
  destruct (raw_data d) as [raw|]; auto.
  destruct a as [a|]; auto. destruct b as [b|]; auto. destruct c as [c|]; auto.
  cbn [fst]. unfold clear_all.
  destruct (current_dataset (set_current_dataset s _)) as [d'|]; simpl;
    now rewrite ?nth_error_list_set_other.
Qed.

(** In the active dataset it leaves the file name and the raw series. *)
Lemma adjust_energy_axis_keeps (s : XRDDataAnalyzer) (a b c : option float)
    (d : Dataset) :
  current_dataset s = Some d ->
  exists d',
    current_dataset (fst (adjust_energy_axis s a b c)) = Some d' /\
    filename d' = filename d /\ raw_data d' = raw_data d.
Proof.
  intros Hd. unfold adjust_energy_axis. rewrite Hd.
  destruct (raw_data d) as [raw|] eqn:Hraw; [|exists d; auto].
  destruct a as [a|]; [|exists d; auto].
  destruct b as [b|]; [|exists d; auto].
  destruct c as [c|]; [|exists d; auto].
  cbn [fst]. eexists. split; [eapply clear_all_after_set; eauto|].
  simpl. auto.
Qed.

(** C9.  The raw series of a dataset is never modified after import: every
    handler other than the import (ROI creation, fit, clearing, energy
    calibration, dataset selection, 2theta calibration) leaves the raw
    series of every dataset as it is; along any sequence of handlers the raw
    series present at the start stay in place, unchanged, imports only
    adding new ones after them.  An energy calibration touches the active
    dataset only, where it keeps the file name and the raw series, and it
    leaves the rest of the analyzer as it is; when it is applied, it writes
    the adjusted series and the [x_axis_adjusted] flag and empties the
    regions and the fit results of that dataset. *)
Theorem raw_data_never_modified (s : XRDDataAnalyzer) :
  (forall o, is_import o = false ->
             map raw_data (datasets (step s o)) = map raw_data (datasets s)) /\
  (forall ops, exists imported,
      map raw_data (datasets (run s ops)) = map raw_data (datasets s) ++ imported) /\
  (forall a b c,
     (forall i, i <> Z.to_nat (current_dataset_index s) ->
                nth_error (datasets (fst (adjust_energy_axis s a b c))) i
                = nth_error (datasets s) i) /\
     (forall d, current_dataset s = Some d ->
                exists d',
                  current_dataset (fst (adjust_energy_axis s a b c)) = Some d' /\
                  filename d' = filename d /\ raw_data d' = raw_data d) /\
     current_dataset_index (fst (adjust_energy_axis s a b c)) = current_dataset_index s /\
     calib_params (fst (adjust_energy_axis s a b c)) = calib_params s /\
     calibrated (fst (adjust_energy_axis s a b c)) = calibrated s /\
     region_selection_active (fst (adjust_energy_axis s a b c))
     = region_selection_active s /\
     current_roi (fst (adjust_energy_axis s a b c)) = current_roi s) /\
  (forall d raw a b c,
     current_dataset s = Some d ->
     raw_data d = Some raw ->
     current_dataset (fst (adjust_energy_axis s (Some a) (Some b) (Some c)))
     = Some (mkDataset (filename d) (Some raw)
               (Some (column_stack (map (energy a b c) (column 0 raw)) (column 1 raw)))
               [] [] true)).
Proof.
  split; [|split; [|split]].
  - intros o. apply step_raw.
  - intros ops. revert s. unfold run.
    induction ops as [|o rest IH]; intros s; simpl.
    + exists []. now rewrite app_nil_r.
    + destruct (IH (step s o)) as [l2 H2].
      destruct (step_raw_prefix s o) as [l1 H1].
      exists (l1 ++ l2). now rewrite H2, H1, app_assoc.
  - intros a b c. split; [|split].
    + intros i. apply adjust_energy_axis_others.
    + intros d. apply adjust_energy_axis_keeps.
    + unfold adjust_energy_axis.
      destruct (current_dataset s) as [d|]; auto.
      destruct (raw_data d) as [raw|]; auto.
      destruct a as [a|]; auto. destruct b as [b|]; auto. destruct c as [c|]; auto.
      cbn [fst]. unfold clear_all.
      destruct (current_dataset (set_current_dataset s _)); simpl; auto.
  - intros d raw a b c Hd Hraw.
    unfold adjust_energy_axis. rewrite Hd, Hraw. cbn [fst].
    erewrite clear_all_after_set by eassumption.
    unfold set_fit_results, set_regions, set_adjusted. simpl. now rewrite Hraw.
Qed.

(** ** Import *)

(** [np.loadtxt] returns a two-dimensional array only for at least two rows
    of at least two columns. *)
Lemma np_loadtxt_2d (table rows : array2) (nc : nat) :
  np_loadtxt table = Some (Arr2 rows nc) ->
  rows = table /\ nc = ncols_of table /\ (2 <= length table)%nat /\ nc <> 1%nat.
Proof.
  unfold np_loadtxt. destruct (negb (rectangular table)); try discriminate.
  destruct table as [|r1 [|r2 rest]]; try discriminate.
  - destruct r1 as [|v [|w t]]; discriminate.
  - destruct (ncols_of (r1 :: r2 :: rest) =? 1)%nat eqn:E; try discriminate.
    intros H. injection H as <- <-. apply Nat.eqb_neq in E.
    repeat split; auto. simpl. lia.
Qed.

(** A one-line file is loaded as a vector, which the shape check refuses. *)
Example np_loadtxt_one_line : np_loadtxt [[1; 2]] = Some (Arr1 [1; 2]).
Proof. reflexivity. Qed.

Example np_loadtxt_one_column : np_loadtxt [[1]; [2]; [3]] = Some (Arr1 [1; 2; 3]).
Proof. reflexivity. Qed.

(** The handler itself makes no test on the rows that remain: on a
    two-dimensional array of a single row, which [np.loadtxt] never returns,
    it would store an empty series. *)
Remark import_array_single_row (s : XRDDataAnalyzer) (fname : string) (row : list float) :
  exists s',
    import_array s fname (Arr2 [row] 2) = inl s' /\
    datasets s' = datasets s ++ [Dataset_init (Some fname) (Some [])].
Proof.
  eexists. split; reflexivity.
Qed.

(** The dataset just appended is the active one. *)
Lemma current_dataset_appended (ds : list Dataset) (d : Dataset)
    (cp : option calibration) (cal act : bool) (cur : option pending_roi) :
  current_dataset
    (mkAnalyzer (ds ++ [d]) (Z.of_nat (length (ds ++ [d])) - 1) cp cal act cur)
  = Some d.
Proof.
  unfold current_dataset. cbn [current_dataset_index datasets].
  rewrite length_app. simpl length.
  replace (Z.of_nat (length ds + 1) - 1)%Z with (Z.of_nat (length ds)) by lia.
  rewrite Nat2Z.id.
  replace ((0 <=? Z.of_nat (length ds)) &&
           (Z.of_nat (length ds) <? Z.of_nat (length ds + 1)))%Z with true.
  - rewrite nth_error_app2 by lia. now rewrite Nat.sub_diag.
  - symmetry. apply andb_true_intro. split; [apply Z.leb_le | apply Z.ltb_lt]; lia.
Qed.

(** [np.loadtxt] only loads tables whose lines have the same number of
    columns. *)
Lemma np_loadtxt_rectangular (table : array2) (a : ndarray) :
  np_loadtxt table = Some a -> rectangular table = true.
Proof.
  unfold np_loadtxt. destruct (rectangular table); [reflexivity | discriminate].
Qed.

(** An import either fails, leaving the analyzer as it was, or stores the
    table without its last row; the latter only for two rows or more with
    the same number, two or more, of columns. *)
Lemma import_data_cases (s : XRDDataAnalyzer) (fname : string) (table : array2) :
  (exists text, import_data s fname table = (s, fun _ => MsgCritical text)) \/
  (rectangular table = true /\
   (2 <= ncols_of table)%nat /\ (2 <= length table)%nat /\
   import_data s fname table = (imported s fname table, shown_after_import)).
Proof.
  unfold import_data.
  destruct (np_loadtxt table) as [arr|] eqn:L; [|left; eauto].
  unfold import_array.
  destruct arr as [v|v|rows nc]; try (left; eauto; fail).
  destruct (nc <? 2)%nat eqn:Hnc; [left; eauto|].
  apply Nat.ltb_ge in Hnc.
  pose proof (np_loadtxt_rectangular _ _ L) as Hrect.
  apply np_loadtxt_2d in L. destruct L as (-> & -> & Hlen & _).
  right. repeat split; auto.
  unfold imported. destruct table as [|r t]; [simpl in Hlen; lia|].
  reflexivity.
Qed.

Lemma removelast_length {A : Type} (l : list A) :
  length (removelast l) = (length l - 1)%nat.
Proof.
  induction l as [|h [|h' t] IH]; simpl in *; auto. rewrite IH. lia.
Qed.

(** A table of at least two rows with the same number, at least two, of
    columns is stored. *)
Lemma import_data_success (s : XRDDataAnalyzer) (fname : string) (table : array2) :
  rectangular table = true ->
  (2 <= ncols_of table)%nat -> (2 <= length table)%nat ->
  import_data s fname table = (imported s fname table, shown_after_import).
Proof.
  intros Hrect Hc Hl.
  unfold import_data, np_loadtxt. rewrite Hrect. simpl negb. cbv iota.
  destruct table as [|r1 [|r2 rest]]; try (simpl in Hl; lia).
  destruct (ncols_of (r1 :: r2 :: rest) =? 1)%nat eqn:E.
  - apply Nat.eqb_eq in E. lia.
  - unfold import_array.
    destruct (ncols_of (r1 :: r2 :: rest) <? 2)%nat eqn:E2.
    + apply Nat.ltb_lt in E2. lia.
    + reflexivity.
Qed.

(** C8.  The import drops the last row of the table in every case.  It fails
    (critical message, nothing stored) when the table has fewer than two
    columns or when no row is left once the last one is dropped.  When it
    succeeds, the new dataset is the active one, its raw series is the
    table without its last row, its adjusted series is a copy of it and
    [x_axis_adjusted] is false.  On every table of at least two rows with
    the same number, at least two, of columns this dataset is stored; the
    import then succeeds when the display calls that follow return, and
    shows the critical message, the dataset staying stored, when they
    raise. *)
Theorem import_data_truncates
    (s : XRDDataAnalyzer) (fname : string) (table : array2) :
  ((ncols_of table < 2)%nat \/ length (removelast table) = 0%nat ->
   import_fails s (import_data s fname table)) /\
  (forall display,
     snd (import_data s fname table) display = NoMessage ->
     exists d,
       datasets (fst (import_data s fname table)) = datasets s ++ [d] /\
       current_dataset (fst (import_data s fname table)) = Some d /\
       raw_data d = Some (removelast table) /\
       adjusted_data d = Some (removelast table) /\
       x_axis_adjusted d = false /\
       selected_regions d = [] /\
       fit_results d = []) /\
  (rectangular table = true ->
   (2 <= ncols_of table)%nat ->
   (2 <= length table)%nat ->
   fst (import_data s fname table) = imported s fname table /\
   snd (import_data s fname table) Drawn = NoMessage /\
   exists text, snd (import_data s fname table) DrawingRaises = MsgCritical text).
Proof.
  split; [|split].
  - intros H.
    destruct (import_data_cases s fname table) as [[text E]|(Hrect & Hc & Hl & E)];
      rewrite E; [split; [reflexivity | intros display; simpl; eauto]|].
    exfalso. rewrite removelast_length in H.
    destruct H as [H|H]; [clear - H Hc | clear - H Hl]; lia.
  - intros display H.
    destruct (import_data_cases s fname table) as [[text E]|(Hrect & Hc & Hl & E)];
      rewrite E in *; [discriminate|].
    exists (Dataset_init (Some fname) (Some (removelast table))).
    split; [reflexivity|]. split; [apply current_dataset_appended|].
    simpl. auto.
  - intros Hrect Hc Hl.
    rewrite (import_data_success s fname table Hrect Hc Hl).
    split; [reflexivity|]. split; [reflexivity|]. simpl. eauto.
Qed.

(** ** 2theta calibrator *)

(** The collection loop keeps exactly the complete pairs, in table order. *)
Lemma collect_pairs_complete (rows : list table_row) (pairs : list (float * float)) :
  collect_pairs rows pairs = pairs ++ complete_pairs rows.
Proof.
  revert pairs; induction rows as [|row rest IH]; intros pairs; simpl.
  - now rewrite app_nil_r.
  - destruct (d_item row) as [| |t|d], (e_item row) as [| |t'|E]; simpl;
      rewrite IH; auto.
    now rewrite <- app_assoc.
Qed.

(** Without a zero divisor the angle loop computes the Bragg angle of each
    pair, in order. *)
Lemma twotheta_loop_values (pairs : list (float * float)) (acc : array1) :
  (forall d E, In (d, E) pairs -> (2 * d * E =? 0) = false) ->
  twotheta_loop pairs acc = Some (acc ++ map bragg_2theta pairs).
Proof.
  revert acc; induction pairs as [|[d E] rest IH]; intros acc H; simpl.
  - now rewrite app_nil_r.
  - unfold twotheta_deg, py_div. rewrite (H d E) by (now left).
    rewrite IH by (intros d' E' Hin; apply H; now right).
    now rewrite <- app_assoc.
Qed.

(** A zero divisor anywhere makes the loop raise. *)
Lemma twotheta_loop_raises (pairs : list (float * float)) (acc : array1) :
  (exists d E, In (d, E) pairs /\ (2 * d * E =? 0) = true) ->
  twotheta_loop pairs acc = None.
Proof.
  revert acc; induction pairs as [|[d E] rest IH]; intros acc (d0 & E0 & Hin & Hz).
  - destruct Hin.
  - simpl. unfold twotheta_deg, py_div.
    destruct (2 * d * E =? 0) eqn:Hd; auto.
    apply IH. destruct Hin as [Heq|Hin].
    + injection Heq as -> ->. congruence.
    + eauto.
Qed.

(** The outcome of the calibration when no division raises. *)
Lemma calibrate_2theta_success (s : XRDDataAnalyzer) (rows : list table_row) :
  complete_pairs rows <> [] ->
  (forall d E, In (d, E) (complete_pairs rows) -> (2 * d * E =? 0) = false) ->
  calibrate_2theta s rows
  = (mkAnalyzer (datasets s) (current_dataset_index s)
       (Some (mkCalibration (np_mean (map bragg_2theta (complete_pairs rows)))
                            (np_std (map bragg_2theta (complete_pairs rows)))
                            HC_KEV_ANGSTROM (length (complete_pairs rows))))
       true (region_selection_active s) (current_roi s),
     NoMessage).
Proof.
  intros Hne Hnz. unfold calibrate_2theta.
  rewrite collect_pairs_complete. simpl app.
  remember (complete_pairs rows) as pairs eqn:E.
  destruct pairs as [|p rest]; [congruence|].
  now rewrite (twotheta_loop_values _ [] Hnz).
Qed.

(** C3 (amended).  For every table with at least one complete pair and no
    complete pair with [2*d*E = 0], the calibration computes for each
    complete pair [2 * degrees(arcsin(hc / (2*d*E)))] with [hc = 12.39842];
    it stores their mean (sum over n) and their population standard
    deviation (square root of the sum of squared deviations over n, not
    n - 1), with the number n of pairs and the constant [hc]. *)
Theorem calibrate_2theta_mean_std (s : XRDDataAnalyzer) (rows : list table_row) :
  complete_pairs rows <> [] ->
  (forall d E, In (d, E) (complete_pairs rows) -> (2 * d * E =? 0) = false) ->
  let thetas :=
    map (fun p => 2 * np_degrees (np_arcsin (12.39842 / (2 * fst p * snd p))))
        (complete_pairs rows) in
  let n := length (complete_pairs rows) in
  let mean := np_sum thetas / float_of_nat n in
  let std :=
    sqrt (np_sum (map (fun v => (v - mean) * (v - mean)) thetas) / float_of_nat n) in
  calibrate_2theta s rows
  = (mkAnalyzer (datasets s) (current_dataset_index s)
                (Some (mkCalibration mean std 12.39842 n))
                true (region_selection_active s) (current_roi s),
     NoMessage).
Proof.
  intros Hne Hnz thetas n mean std.
  rewrite (calibrate_2theta_success s rows Hne Hnz).
  unfold np_mean, np_std. rewrite map_map, !length_map. reflexivity.
Qed.

(** C4 (amended).  With no complete pair (rows with a missing or non-numeric
    d or E are skipped) the calibration stops with the warning and stores
    nothing.  With at least one complete pair it fails exactly when some
    pair has [2*d*E = 0] (the division raises); otherwise it completes and
    marks the analyzer calibrated, whatever the ratios [hc/(2*d*E)]: there
    is no domain check. *)
Theorem calibrate_2theta_outcomes (s : XRDDataAnalyzer) (rows : list table_row) :
  (complete_pairs rows = [] ->
   calibrate_2theta s rows
   = (s, MsgWarning "Need at least 1 d-E pair for calibration")) /\
  ((exists d E, In (d, E) (complete_pairs rows) /\ (2 * d * E =? 0) = true) ->
   calibrate_2theta s rows
   = (s, MsgCritical "Calibration failed: float division by zero")) /\
  (complete_pairs rows <> [] ->
   (forall d E, In (d, E) (complete_pairs rows) -> (2 * d * E =? 0) = false) ->
   snd (calibrate_2theta s rows) = NoMessage /\
   calibrated (fst (calibrate_2theta s rows)) = true).
Proof.
  split; [|split].
  - intros Hnil. unfold calibrate_2theta.
    rewrite collect_pairs_complete, Hnil. reflexivity.
  - intros Hz. unfold calibrate_2theta.
    rewrite collect_pairs_complete. simpl app.
    remember (complete_pairs rows) as pairs eqn:E.
    destruct pairs as [|p rest].
    + destruct Hz as (d & E' & [] & _).
    + now rewrite (twotheta_loop_raises _ [] Hz).
  - intros Hne Hnz. rewrite (calibrate_2theta_success s rows Hne Hnz). auto.
Qed.

(** ** How the handlers change the datasets *)

Lemma list_set_overwrite {A : Type} (l : list A) (i : nat) (x y : A) :
  list_set (list_set l i x) i y = list_set l i y.
Proof.
  revert i; induction l as [|h t IH]; intros [|i]; simpl; auto.
  now rewrite IH.
Qed.

Lemma set_current_dataset_twice (s : XRDDataAnalyzer) (d d' : Dataset) :
  set_current_dataset (set_current_dataset s d) d' = set_current_dataset s d'.
Proof.
  unfold set_current_dataset, set_datasets. simpl.
  now rewrite list_set_overwrite.
Qed.

(** The energy calibration as one write of the active dataset. *)
Lemma adjust_energy_axis_result (s : XRDDataAnalyzer) (d : Dataset)
    (raw : array2) (a b c : float) :
  current_dataset s = Some d ->
  raw_data d = Some raw ->
  fst (adjust_energy_axis s (Some a) (Some b) (Some c))
  = set_current_dataset s
      (set_fit_results
         (set_regions
            (set_adjusted d
               (column_stack (map (energy a b c) (column 0 raw)) (column 1 raw)))
            [])
         []).
Proof.
  intros Hd Hraw. unfold adjust_energy_axis. rewrite Hd, Hraw. cbn [fst].
  unfold clear_all. rewrite (current_dataset_set _ _ _ Hd).
  apply set_current_dataset_twice.
Qed.

(** Every handler leaves the list of datasets as it is, or rewrites the
    active dataset in one of the four ways of [dataset_update], or, for a
    successful import, appends the new dataset. *)
Lemma step_datasets (s : XRDDataAnalyzer) (o : op) :
  datasets (step s o) = datasets s \/
  (exists d d',
      current_dataset s = Some d /\ dataset_update d d' /\
      datasets (step s o)
      = list_set (datasets s) (Z.to_nat (current_dataset_index s)) d') \/
  (exists fname table,
      o = OpImport fname table /\ rectangular table = true /\
      (2 <= ncols_of table)%nat /\ (2 <= length table)%nat /\
      step s o = imported s fname table).
Proof.
  destruct o as [fname table|index|active|ev|ev|ev plot| | |a b c|rows]; simpl.
  - destruct (import_data_cases s fname table) as [[text E]|(Hrect & Hc & Hl & E)].
    + left. now rewrite E.
    + right. right. exists fname, table. rewrite E.
      repeat split; auto.
  - left. unfold on_dataset_changed. destruct (_ && _)%bool; auto.
  - left. unfold toggle_roi_selection. destruct active; auto.
  - left. unfold on_press. destruct (negb _); auto. destruct ev; auto.
  - left. destruct (on_motion_selection s ev) as [c ->]. reflexivity.
  - destruct (on_release_cases s ev plot)
      as [(c & ->)|(cur & x & y & d & act & c & _ & _ & _ & _ & Hlt & Hd & _ & ->)];
      [left; reflexivity|].
    right. left. exists d. eexists. split; [exact Hd|]. split.
    + apply (update_region d (cur_x_min cur) x Hlt).
    + reflexivity.
  - unfold fit_peaks. destruct (current_dataset s) as [d|] eqn:Hd; auto.
    destruct (selected_regions d) as [|r rest] eqn:E; auto.
    destruct (current_series d) as [data|] eqn:Hdata; auto.
    right. left. exists d. eexists. split; [reflexivity|]. split.
    + apply (update_fit d data Hdata). rewrite E. discriminate.
    + rewrite E. reflexivity.
  - unfold clear_all. destruct (current_dataset s) as [d|] eqn:Hd; auto.
    right. left. exists d. eexists. split; [reflexivity|]. split.
    + apply update_clear.
    + reflexivity.
  - destruct (current_dataset s) as [d|] eqn:Hd;
      [|left; unfold adjust_energy_axis; now rewrite Hd].
    destruct (raw_data d) as [raw|] eqn:Hraw;
      [|left; unfold adjust_energy_axis; now rewrite Hd, Hraw].
    destruct a as [a|]; [|left; unfold adjust_energy_axis; now rewrite Hd, Hraw].
    destruct b as [b|]; [|left; unfold adjust_energy_axis; now rewrite Hd, Hraw].
    destruct c as [c|]; [|left; unfold adjust_energy_axis; now rewrite Hd, Hraw].
    right. left. exists d. eexists. split; [reflexivity|]. split.
    + apply (update_calibration d raw a b c Hraw).
    + now rewrite (adjust_energy_axis_result s d raw a b c Hd Hraw).
  - left. unfold calibrate_2theta. destruct (collect_pairs rows []); auto.
    destruct (twotheta_loop _ _); auto.
Qed.

(** X1.  A handler writes the active dataset only: whatever the action, every
    other dataset already present is left exactly as it was. *)
Theorem handlers_write_active_dataset_only
    (s : XRDDataAnalyzer) (o : op) (i : nat) :
  (i < length (datasets s))%nat ->
  i <> Z.to_nat (current_dataset_index s) ->
  nth_error (datasets (step s o)) i = nth_error (datasets s) i.
Proof.
  intros Hi Hne.
  destruct (step_datasets s o) as [E|[(d & d' & _ & _ & E)|(f & t & _ & _ & _ & _ & E)]].
  - now rewrite E.
  - rewrite E. now apply nth_error_list_set_other.
  - rewrite E. simpl. now apply nth_error_app1.
Qed.

(** The active index only moves on a dataset selection within range and on
    a successful import. *)
Lemma step_index (s : XRDDataAnalyzer) (o : op) :
  current_dataset_index (step s o) = current_dataset_index s \/
  (exists index,
      o = OpSelectDataset index /\
      (0 <= index < Z.of_nat (length (datasets s)))%Z /\
      current_dataset_index (step s o) = index) \/
  (exists fname table, o = OpImport fname table /\ step s o = imported s fname table).
Proof.
  destruct o as [fname table|index|active|ev|ev|ev plot| | |a b c|rows]; simpl.
  - destruct (import_data_cases s fname table) as [[text E]|(Hrect & Hc & Hl & E)];
      rewrite E; [auto|].
    right. right. eauto.
  - unfold on_dataset_changed.
    destruct ((0 <=? index) && (index <? Z.of_nat (length (datasets s))))%Z eqn:E;
      auto.
    right. left. exists index. apply andb_prop in E. destruct E as [E1 E2].
    apply Z.leb_le in E1. apply Z.ltb_lt in E2. auto.
  - left. unfold toggle_roi_selection. destruct active; auto.
  - left. unfold on_press. destruct (negb _); auto. destruct ev; auto.
  - left. destruct (on_motion_selection s ev) as [c ->]. reflexivity.
  - left. destruct (on_release_cases s ev plot)
      as [(c & ->)|(cur & x & y & d & act & c & _ & _ & _ & _ & _ & _ & _ & ->)];
      reflexivity.
  - left. unfold fit_peaks. destruct (current_dataset s) as [d|]; auto.
    destruct (selected_regions d); auto. destruct (current_series d); auto.
  - left. unfold clear_all. destruct (current_dataset s); auto.
  - left. unfold adjust_energy_axis. destruct (current_dataset s) as [d|]; auto.
    destruct (raw_data d); auto.
    destruct a; auto. destruct b; auto. destruct c; auto.
    cbn [fst]. unfold clear_all.
    destruct (current_dataset (set_current_dataset s _)); auto.
  - left. unfold calibrate_2theta. destruct (collect_pairs rows []); auto.
    destruct (twotheta_loop _ _); auto.
Qed.

Lemma step_active_index_ok (s : XRDDataAnalyzer) (o : op) :
  active_index_ok s -> active_index_ok (step s o).
Proof.
  intros Hok. unfold active_index_ok in *.
  destruct (step_index s o) as [Ei|[(index & Ho & Hr & Ei)|(f & t & _ & E)]].
  - destruct (step_datasets s o)
      as [E|[(d & d' & _ & _ & E)|(f & t & _ & _ & _ & _ & E)]].
    + now rewrite Ei, E.
    + rewrite Ei, E, list_set_length.
      destruct Hok as [[Hnil Hi]|Hr]; [|auto].
      left. rewrite Hnil. simpl. auto.
    + rewrite E. right. simpl. rewrite length_app. simpl. lia.
  - right. rewrite Ei.
    destruct (step_datasets s o)
      as [E|[(d & d' & _ & _ & E)|(f & t & Ho' & _)]].
    + now rewrite E.
    + now rewrite E, list_set_length.
    + rewrite Ho in Ho'. discriminate Ho'.
  - rewrite E. right. simpl. rewrite length_app. simpl. lia.
Qed.

Lemma run_active_index_ok (ops : list op) (s : XRDDataAnalyzer) :
  active_index_ok s -> active_index_ok (run s ops).
Proof.
  revert s. unfold run.
  induction ops as [|o rest IH]; intros s Hok; simpl; auto.
  apply IH. now apply step_active_index_ok.
Qed.

(** X2.  Whatever actions are performed from start-up, the active index is
    -1 while no dataset has been imported and the index of a dataset
    afterwards: there is an active dataset exactly when there is a
    dataset. *)
Theorem active_dataset_exists (ops : list op) :
  active_index_ok (run analyzer_init ops) /\
  (current_dataset (run analyzer_init ops) = None <->
   datasets (run analyzer_init ops) = []).
Proof.
  assert (Hok : active_index_ok (run analyzer_init ops)).
  { apply run_active_index_ok. left. split; reflexivity. }
  split; [exact Hok|].
  set (s := run analyzer_init ops) in *. clearbody s.
  unfold current_dataset. destruct Hok as [[Hnil Hi]|Hr].
  - rewrite Hnil, Hi. simpl. split; auto.
  - replace ((0 <=? current_dataset_index s)
             && (current_dataset_index s <? Z.of_nat (length (datasets s))))%Z
      with true
      by (symmetry; apply andb_true_intro;
          split; [apply Z.leb_le | apply Z.ltb_lt]; lia).
    split.
    + intros H. apply nth_error_None in H. lia.
    + intros H. rewrite H in Hr. simpl in Hr. lia.
Qed.

(** ** Invariants of the regions *)

(** A property of region lists that holds of the empty list and survives
    every committed region holds of every dataset, whatever the handler. *)
Lemma step_regions (Q : list roi -> Prop) (s : XRDDataAnalyzer) (o : op) :
  Q [] ->
  (forall rs x_start xdata,
      Q rs -> (0.001 <? abs (xdata - x_start)) = true ->
      Q (rs ++ [new_region x_start xdata (length rs)])) ->
  Forall (fun d => Q (selected_regions d)) (datasets s) ->
  Forall (fun d => Q (selected_regions d)) (datasets (step s o)).
Proof.
  intros Hnil Happ HF.
  destruct (step_datasets s o)
    as [E|[(d & d' & Hd & Hu & E)|(f & t & _ & _ & _ & _ & E)]].
  - now rewrite E.
  - rewrite E. apply Forall_list_set; auto.
    apply current_dataset_In in Hd. rewrite Forall_forall in HF.
    specialize (HF _ Hd).
    destruct Hu as [x_start xdata Hlt|data _ _| |raw a b c _]; simpl; auto.
  - rewrite E. simpl. apply Forall_app. split; auto.
Qed.

Lemma run_regions (Q : list roi -> Prop) (ops : list op) (s : XRDDataAnalyzer) :
  Q [] ->
  (forall rs x_start xdata,
      Q rs -> (0.001 <? abs (xdata - x_start)) = true ->
      Q (rs ++ [new_region x_start xdata (length rs)])) ->
  Forall (fun d => Q (selected_regions d)) (datasets s) ->
  Forall (fun d => Q (selected_regions d)) (datasets (run s ops)).
Proof.
  intros Hnil Happ. revert s. unfold run.
  induction ops as [|o rest IH]; intros s HF; simpl; auto.
  apply IH. now apply step_regions.
Qed.

(** X3.  In every dataset, at any time, the i-th region of the list (from 0)
    carries the palette color of index [i mod 10]: colors follow the order
    of creation since the last clearing and repeat every ten regions. *)
Theorem region_colors_in_turn (ops : list op) :
  Forall (fun d => colors_in_turn (selected_regions d))
         (datasets (run analyzer_init ops)).
Proof.
  apply run_regions.
  - intros [|i] r H; discriminate.
  - intros rs x_start xdata Hrs _ i r Hi.
    destruct (Nat.lt_ge_cases i (length rs)) as [Hlt|Hge].
    + rewrite nth_error_app1 in Hi by assumption. now apply Hrs.
    + rewrite nth_error_app2 in Hi by assumption.
      destruct (i - length rs)%nat as [|k] eqn:Hk.
      * simpl in Hi. injection Hi as <-. simpl.
        replace i with (length rs) by lia. reflexivity.
      * simpl in Hi. destruct k; discriminate.
  - constructor.
Qed.

(** Two floats neither of which is below the other are unordered (one is a
    NaN) or compare equal; their difference is then a NaN or a zero. *)
Lemma SFsub_unordered_or_equal (X S : spec_float) :
  SFltb S X = false -> SFltb X S = false ->
  SF64sub X S = S754_nan \/ exists sign, SF64sub X S = S754_zero sign.
Proof.
  unfold SFltb. rewrite (SFcompare_antisym S X).
  destruct (SFcompare S X) as [[| |]|] eqn:E; simpl; try discriminate; intros _ _.
  - (* equal *)
    destruct X as [sx|sx| |sx mx ex], S as [ss|ss| |ss ms es];
      simpl in E; try discriminate;
      try (destruct sx; discriminate); try (destruct ss; discriminate).
    + right. destruct sx, ss; simpl; eauto.
    + left. destruct sx, ss; try discriminate; reflexivity.
    + right. exists false.
      assert (Heq : es = ex /\ ms = mx).
      { destruct ss, sx; try discriminate;
          destruct (es ?= ex)%Z eqn:He; try discriminate;
          fold_pos_compare; destruct (ms ?= mx)%positive eqn:Hm;
          try discriminate;
          apply Z.compare_eq in He; apply Pos.compare_eq in Hm; auto. }
      destruct Heq as [-> ->].
      assert (Hs : ss = sx) by (destruct ss, sx; try discriminate; reflexivity).
      subst ss. unfold SF64sub, SFsub. cbv zeta. now rewrite Z.sub_diag.
  - (* unordered *)
    left.
    destruct X as [sx|sx| |sx mx ex], S as [ss|ss| |ss ms es];
      simpl in E; try discriminate; try reflexivity.
Qed.

(** The threshold 0.001 is a positive number. *)
Lemma threshold_positive :
  exists m e, Prim2SF 0.001 = S754_finite false m e.
Proof.
  eexists. eexists. vm_compute. reflexivity.
Qed.

(** A drag between two positions neither of which is below the other does
    not pass the threshold of [on_release]. *)
Lemma unordered_below_threshold (s x : float) :
  (s <? x) = false -> (x <? s) = false -> (0.001 <? abs (x - s)) = false.
Proof.
  rewrite !FloatAxioms.ltb_spec, FloatAxioms.abs_spec, FloatAxioms.sub_spec.
  intros H1 H2.
  destruct threshold_positive as (m & e & ->).
  destruct (SFsub_unordered_or_equal _ _ H1 H2) as [->|[sign ->]]; reflexivity.
Qed.

(** A committed region has its bounds in order and their difference as
    width. *)
Lemma new_region_ok (x_start xdata : float) (n : nat) :
  (0.001 <? abs (xdata - x_start)) = true ->
  region_ok (new_region x_start xdata n).
Proof.
  intros Hlt. unfold region_ok, new_region. simpl. split.
  - unfold py_min, py_max.
    destruct (x_start <? xdata) eqn:H1.
    + now rewrite (ltb_asym _ _ H1).
    + destruct (xdata <? x_start) eqn:H2; [assumption|].
      rewrite (unordered_below_threshold _ _ H1 H2) in Hlt. discriminate.
  - apply abs_max_sub_min.
Qed.

(** X4.  In every dataset, at any time, every region has [x_min < x_max]
    strictly (so neither bound is a NaN) and a width equal to
    [x_max - x_min]. *)
Theorem regions_well_formed (ops : list op) :
  Forall (fun d => Forall region_ok (selected_regions d))
         (datasets (run analyzer_init ops)).
Proof.
  apply run_regions.
  - constructor.
  - intros rs x_start xdata Hrs Hlt. apply Forall_app. split; auto.
    constructor; auto. now apply new_region_ok.
  - constructor.
Qed.

(** ** Shape of the series *)

Lemma Forall_removelast {A : Type} (P : A -> Prop) (l : list A) :
  Forall P l -> Forall P (removelast l).
Proof.
  induction 1 as [|h t Hh Ht IH]; simpl; auto.
  destruct t; auto.
Qed.

Lemma rectangular_rows (table : array2) :
  rectangular table = true ->
  Forall (fun row => length row = ncols_of table) table.
Proof.
  unfold rectangular. intros H. rewrite forallb_forall in H.
  apply Forall_forall. intros row Hin. apply Nat.eqb_eq. now apply H.
Qed.

Lemma column_stack_shape (xs ys : array1) :
  length xs = length ys ->
  length (column_stack xs ys) = length xs /\
  Forall (fun row => (2 <= length row)%nat) (column_stack xs ys).
Proof.
  intros H. unfold column_stack. split.
  - rewrite length_map, length_combine. lia.
  - apply Forall_forall. intros row Hin. apply in_map_iff in Hin.
    destruct Hin as (p & <- & _). simpl. lia.
Qed.

(** The dataset a successful import creates has the shape of
    [dataset_shape]. *)
Lemma imported_shape (fname : string) (table : array2) :
  rectangular table = true ->
  (2 <= ncols_of table)%nat -> (2 <= length table)%nat ->
  dataset_shape (Dataset_init (Some fname) (Some (removelast table))).
Proof.
  intros Hrect Hc Hl.
  pose proof (Forall_removelast _ _ (rectangular_rows _ Hrect)) as Hrows.
  exists (removelast table), (removelast table), (ncols_of table). simpl.
  repeat split; auto.
  - intros E. apply (f_equal (@length _)) in E.
    rewrite removelast_length in E. simpl in E. lia.
  - eapply Forall_impl; [|exact Hrows]. simpl. intros row Hrow. lia.
Qed.

Lemma dataset_update_shape (d d' : Dataset) :
  dataset_update d d' -> dataset_shape d -> dataset_shape d'.
Proof.
  intros Hu (raw & adj & nc & Hraw & Hadj & Hne & Hnc & Hrows & Hlen & Hcols).
  destruct Hu as [x_start xdata Hlt|data _ _| |raw' a b c Hraw'];
    try (exists raw, adj, nc; simpl; repeat split; assumption).
  rewrite Hraw in Hraw'. injection Hraw' as <-.
  destruct (column_stack_shape (map (energy a b c) (column 0 raw)) (column 1 raw))
    as [Hl Hc].
  { unfold column. now rewrite !length_map. }
  eexists raw, _, nc. simpl. repeat split; eauto.
  rewrite Hl. unfold column. now rewrite !length_map.
Qed.

Lemma step_shape (s : XRDDataAnalyzer) (o : op) :
  Forall dataset_shape (datasets s) -> Forall dataset_shape (datasets (step s o)).
Proof.
  intros HF.
  destruct (step_datasets s o)
    as [E|[(d & d' & Hd & Hu & E)|(f & t & _ & Hrect & Hc & Hl & E)]].
  - now rewrite E.
  - rewrite E. apply Forall_list_set; auto.
    apply current_dataset_In in Hd. rewrite Forall_forall in HF.
    eapply dataset_update_shape; eauto.
  - rewrite E. simpl. apply Forall_app. split; auto.
    constructor; auto. now apply imported_shape.
Qed.

Lemma run_shape (ops : list op) (s : XRDDataAnalyzer) :
  Forall dataset_shape (datasets s) -> Forall dataset_shape (datasets (run s ops)).
Proof.
  revert s. unfold run.
  induction ops as [|o rest IH]; intros s HF; simpl; auto.
  apply IH. now apply step_shape.
Qed.

(** X5.  Whatever actions are performed from start-up, every dataset holds a
    raw table of at least one row whose rows all have the same number, at
    least two, of entries, and an adjusted table with as many rows, each of
    at least two entries.  In particular the series read by the fit, the
    plot and the export always exists and has both columns. *)
Theorem datasets_keep_their_shape (ops : list op) :
  Forall dataset_shape (datasets (run analyzer_init ops)) /\
  forall d,
    current_dataset (run analyzer_init ops) = Some d ->
    exists data,
      current_series d = Some data /\ data <> [] /\
      Forall (fun row => (2 <= length row)%nat) data.
Proof.
  assert (HF : Forall dataset_shape (datasets (run analyzer_init ops))).
  { apply run_shape. constructor. }
  split; [exact HF|].
  intros d Hd. apply current_dataset_In in Hd.
  rewrite Forall_forall in HF.
  destruct (HF _ Hd)
    as (raw & adj & nc & Hraw & Hadj & Hne & Hnc & Hrows & Hlen & Hcols).
  unfold current_series. destruct (x_axis_adjusted d).
  - exists adj. repeat split; auto.
    intros E. rewrite E in Hlen. destruct raw; [congruence | discriminate].
  - exists raw. repeat split; auto.
    eapply Forall_impl; [|exact Hrows]. simpl. intros row Hrow. lia.
Qed.

(** ** The two calibrations, the fit and the clearing *)

(** X6.  The 2theta calibration and the rest of the analyzer do not touch
    each other: no other handler changes the stored calibration or the
    [calibrated] mark; the 2theta calibration changes neither the datasets,
    nor the active index, nor the ROI selection; and when it does not
    complete (warning or error) it leaves the analyzer, hence an earlier
    result, exactly as it was. *)
Theorem calibration_is_independent (s : XRDDataAnalyzer) :
  (forall o, is_calibrate o = false ->
             calib_params (step s o) = calib_params s /\
             calibrated (step s o) = calibrated s) /\
  (forall rows,
      datasets (fst (calibrate_2theta s rows)) = datasets s /\
      current_dataset_index (fst (calibrate_2theta s rows)) = current_dataset_index s /\
      region_selection_active (fst (calibrate_2theta s rows)) = region_selection_active s /\
      current_roi (fst (calibrate_2theta s rows)) = current_roi s) /\
  (forall rows,
      snd (calibrate_2theta s rows) <> NoMessage ->
      fst (calibrate_2theta s rows) = s).
Proof.
  split; [|split].
  - intros o Ho.
    destruct o as [fname table|index|active|ev|ev|ev plot| | |a b c|rows];
      simpl; try discriminate.
    + destruct (import_data_cases s fname table) as [[text E]|(_ & _ & _ & E)];
        rewrite E; auto.
    + unfold on_dataset_changed. destruct (_ && _)%bool; auto.
    + unfold toggle_roi_selection. destruct active; auto.
    + unfold on_press. destruct (negb _); auto. destruct ev; auto.
    + destruct (on_motion_selection s ev) as [c ->]. auto.
    + destruct (on_release_cases s ev plot)
        as [(c & ->)|(cur & x & y & d & act & c & _ & _ & _ & _ & _ & _ & _ & ->)];
        auto.
    + unfold fit_peaks. destruct (current_dataset s) as [d|]; auto.
      destruct (selected_regions d); auto. destruct (current_series d); auto.
    + unfold clear_all. destruct (current_dataset s); auto.
    + unfold adjust_energy_axis. destruct (current_dataset s) as [d|]; auto.
      destruct (raw_data d); auto.
      destruct a; auto. destruct b; auto. destruct c; auto.
      cbn [fst]. unfold clear_all.
      destruct (current_dataset (set_current_dataset s _)); auto.
  - intros rows. unfold calibrate_2theta.
    destruct (collect_pairs rows []); auto.
    destruct (twotheta_loop _ _); auto.
  - intros rows. unfold calibrate_2theta.
    destruct (collect_pairs rows []); auto.
    destruct (twotheta_loop _ _); auto.
    simpl. congruence.
Qed.

(** What a fit writes when there is something to fit. *)
Lemma fit_peaks_result (s : XRDDataAnalyzer) (d : Dataset) (data : array2) :
  current_dataset s = Some d ->
  selected_regions d <> [] ->
  current_series d = Some data ->
  fst (fit_peaks s)
  = set_current_dataset s
      (set_fit_results d
         (fit_loop (column 0 data) (column 1 data) (selected_regions d) [])).
Proof.
  intros Hd Hne Hdata. unfold fit_peaks. rewrite Hd, Hdata.
  destruct (selected_regions d); [congruence | reflexivity].
Qed.

(** X7.  A fit rebuilds the result list from the regions and the current
    series alone: whatever results the active dataset held before, the
    analyzer after the fit is the same; in particular fitting twice in a row
    gives what fitting once gives. *)
Theorem fit_peaks_rebuilds (s : XRDDataAnalyzer) :
  (forall d data previous,
      current_dataset s = Some d ->
      selected_regions d <> [] ->
      current_series d = Some data ->
      fst (fit_peaks (set_current_dataset s (set_fit_results d previous)))
      = fst (fit_peaks s)) /\
  fst (fit_peaks (fst (fit_peaks s))) = fst (fit_peaks s).
Proof.
  assert (H : forall d data previous,
      current_dataset s = Some d ->
      selected_regions d <> [] ->
      current_series d = Some data ->
      fst (fit_peaks (set_current_dataset s (set_fit_results d previous)))
      = fst (fit_peaks s)).
  { intros d data previous Hd Hne Hdata.
    rewrite (fit_peaks_result s d data Hd Hne Hdata).
    rewrite (fit_peaks_result _ (set_fit_results d previous) data
               (current_dataset_set _ _ _ Hd) Hne Hdata).
    now rewrite set_current_dataset_twice. }
  split; [exact H|].
  assert (Hsame : fst (fit_peaks s) = s ->
                  fst (fit_peaks (fst (fit_peaks s))) = fst (fit_peaks s)).
  { intros E. rewrite E. exact E. }
  destruct (current_dataset s) as [d|] eqn:Hd.
  - destruct (selected_regions d) as [|r rest] eqn:Hr.
    + apply Hsame. unfold fit_peaks. now rewrite Hd, Hr.
    + destruct (current_series d) as [data|] eqn:Hdata.
      * assert (Hne : selected_regions d <> []) by (rewrite Hr; discriminate).
        rewrite (fit_peaks_result s d data Hd Hne Hdata).
        rewrite <- (fit_peaks_result s d data Hd Hne Hdata) at 2.
        apply (H d data _ eq_refl Hne Hdata).
      * apply Hsame. unfold fit_peaks. now rewrite Hd, Hr, Hdata.
  - apply Hsame. unfold fit_peaks. now rewrite Hd.
Qed.

(** X8.  Energy calibrations do not compose: each one is computed from the
    raw channels, so a calibration applied after another leaves the
    analyzer as if it had been applied alone. *)
Theorem adjust_energy_axis_last_wins
    (s : XRDDataAnalyzer) (a b c : option float) (a' b' c' : float) :
  fst (adjust_energy_axis (fst (adjust_energy_axis s a b c))
                          (Some a') (Some b') (Some c'))
  = fst (adjust_energy_axis s (Some a') (Some b') (Some c')).
Proof.
  destruct (current_dataset s) as [d|] eqn:Hd;
    [|unfold adjust_energy_axis at 2; now rewrite Hd].
  destruct (raw_data d) as [raw|] eqn:Hraw;
    [|unfold adjust_energy_axis at 2; now rewrite Hd, Hraw].
  destruct a as [a|]; [|unfold adjust_energy_axis at 2; now rewrite Hd, Hraw].
  destruct b as [b|]; [|unfold adjust_energy_axis at 2; now rewrite Hd, Hraw].
  destruct c as [c|]; [|unfold adjust_energy_axis at 2; now rewrite Hd, Hraw].
  rewrite (adjust_energy_axis_result s d raw a b c Hd Hraw).
  rewrite (adjust_energy_axis_result s d raw a' b' c' Hd Hraw).
  erewrite adjust_energy_axis_result;
    [|eapply current_dataset_set; eauto | simpl; exact Hraw].
  now rewrite set_current_dataset_twice.
Qed.

(** X9.  After a clearing there is nothing to fit: a fit then only warns and
    leaves the analyzer as it is.  The same holds after an energy
    calibration that was applied. *)
Theorem fit_after_clearing_warns (s : XRDDataAnalyzer) :
  fit_peaks (clear_all s)
  = (clear_all s, MsgWarning "No regions selected for fitting") /\
  forall a b c,
    snd (adjust_energy_axis s a b c) = NoMessage ->
    fit_peaks (fst (adjust_energy_axis s a b c))
    = (fst (adjust_energy_axis s a b c),
       MsgWarning "No regions selected for fitting").
Proof.
  split.
  - unfold clear_all. destruct (current_dataset s) as [d|] eqn:Hd.
    + unfold fit_peaks. now rewrite (current_dataset_set _ _ _ Hd).
    + unfold fit_peaks. now rewrite Hd.
  - intros a b c Hm.
    destruct (current_dataset s) as [d|] eqn:Hd;
      [|unfold adjust_energy_axis in Hm; rewrite Hd in Hm; discriminate].
    destruct (raw_data d) as [raw|] eqn:Hraw;
      [|unfold adjust_energy_axis in Hm; rewrite Hd, Hraw in Hm; discriminate].
    destruct a as [a|];
      [|unfold adjust_energy_axis in Hm; rewrite Hd, Hraw in Hm; discriminate].
    destruct b as [b|];
      [|unfold adjust_energy_axis in Hm; rewrite Hd, Hraw in Hm; discriminate].
    destruct c as [c|];
      [|unfold adjust_energy_axis in Hm; rewrite Hd, Hraw in Hm; discriminate].
    rewrite (adjust_energy_axis_result s d raw a b c Hd Hraw).
    unfold fit_peaks. now rewrite (current_dataset_set _ _ _ Hd).
Qed.

(** ** Mouse handlers *)

(** Outside the selection mode the mouse handlers do nothing. *)
Lemma mouse_ignored (s : XRDDataAnalyzer) (o : op) :
  region_selection_active s = false -> is_mouse o = true -> step s o = s.
Proof.
  intros Hoff Hm.
  destruct o as [fname table|index|active|ev|ev|ev plot| | |a b c|rows];
    try discriminate; simpl.
  - unfold on_press. now rewrite Hoff.
  - unfold on_motion. now rewrite Hoff.
  - unfold on_release. now rewrite Hoff.
Qed.

Lemma mouse_run_ignored (evs : list op) (s : XRDDataAnalyzer) :
  region_selection_active s = false ->
  Forall (fun o => is_mouse o = true) evs ->
  run s evs = s.
Proof.
  intros Hoff HF. unfold run.
  induction HF as [|o rest Ho Hrest IH]; simpl; auto.
  now rewrite (mouse_ignored s o Hoff Ho).
Qed.

(** X10.  On a drag whose handle was not removed before, a release whose
    redraw returns ends the drag: until the next press, no further release
    or move changes anything.  A release that has created a region and
    whose redraw returned has left the selection mode: whatever presses,
    moves and releases follow, nothing changes until the selection button is
    pressed again, so one activation of the button then gives one region.
    When the redraw raises after the append, the selection mode and the
    drag stay instead, with the same starting point. *)
Theorem one_region_per_selection (s : XRDDataAnalyzer) (event : mouse_event) :
  (forall cur,
      region_selection_active s = true ->
      current_roi s = Some cur ->
      cur_rect cur <> Stale ->
      current_roi (on_release s event Drawn) = None /\
      forall event' plot,
        on_release (on_release s event Drawn) event' plot = on_release s event Drawn /\
        on_motion (on_release s event Drawn) event' = on_release s event Drawn) /\
  (datasets (on_release s event Drawn) <> datasets s ->
   region_selection_active (on_release s event Drawn) = false /\
   forall evs,
     Forall (fun o => is_mouse o = true) evs ->
     run (on_release s event Drawn) evs = on_release s event Drawn) /\
  (datasets (on_release s event DrawingRaises) <> datasets s ->
   region_selection_active (on_release s event DrawingRaises) = true /\
   exists cur cur',
     current_roi s = Some cur /\
     current_roi (on_release s event DrawingRaises) = Some cur' /\
     cur_x_min cur' = cur_x_min cur).
Proof.
  split; [|split].
  - intros cur Hact Hcur Hlive.
    assert (Hnone : current_roi (on_release s event Drawn) = None).
    { unfold on_release. rewrite Hact, Hcur. simpl.
      destruct event as [|x y]; [reflexivity|].
      destruct (0.001 <? _); [|reflexivity].
      destruct (cur_rect cur); [| |congruence];
        destruct (current_dataset s); reflexivity. }
    split; [exact Hnone|].
    set (r := on_release s event Drawn) in *. clearbody r.
    intros event' plot. split.
    + unfold on_release. rewrite Hnone.
      now destruct (negb (region_selection_active r)).
    + unfold on_motion. rewrite Hnone.
      now destruct (negb (region_selection_active r)).
  - intros Hchanged.
    assert (Hoff : region_selection_active (on_release s event Drawn) = false).
    { destruct (on_release_cases s event Drawn)
        as [(c & E)|(cur & x & y & d & act & c & _ & _ & _ & _ & _ & _ & Hdrawn & E)].
      - rewrite E in Hchanged. now elim Hchanged.
      - rewrite E. destruct (Hdrawn eq_refl) as [-> _]. reflexivity. }
    split; [exact Hoff|].
    intros evs Hevs. now apply mouse_run_ignored.
  - intros Hchanged. revert Hchanged. unfold on_release.
    destruct (region_selection_active s) eqn:Hact; simpl;
      [|intros H; now elim H].
    destruct (current_roi s) as [cur|]; [|intros H; now elim H].
    destruct event as [|x y]; [intros H; now elim H|].
    destruct (0.001 <? _); [|intros H; now elim H].
    destruct (cur_rect cur); [| |intros H; now elim H];
      (destruct (current_dataset s); [|intros H; now elim H]);
      intros _; (split; [reflexivity|]);
      exists cur; eexists; (split; [reflexivity|]); split; reflexivity.
Qed.

(** [<] implies [<=]. *)
Lemma ltb_leb (x y : float) : (x <? y) = true -> (x <=? y) = true.
Proof.
  rewrite FloatAxioms.ltb_spec, FloatAxioms.leb_spec. unfold SFltb, SFleb.
  destruct (SFcompare (Prim2SF x) (Prim2SF y)) as [[]|]; congruence.
Qed.

(** X11.  While a drag is in progress and its handle was not removed
    before, a move inside the axes records a box width that is at least
    0.001 and never a NaN, whatever the position (a move to the left of the
    starting point gives 0.001); it keeps the starting point and touches no
    dataset.  Once the handle has been removed, which a move outside the
    axes does, every further move raises before the width is written and
    changes nothing. *)
Theorem on_motion_width
    (s : XRDDataAnalyzer) (cur : pending_roi) (xdata ydata : float) :
  region_selection_active s = true ->
  current_roi s = Some cur ->
  (cur_rect cur <> Stale ->
   exists w,
     current_roi (on_motion s (InAxes xdata ydata))
     = Some (mkPending (cur_x_min cur) (cur_y_min cur) (Some w) Live) /\
     (0.001 <=? w) = true /\
     ((xdata - cur_x_min cur <=? 0.001) = true -> w = 0.001) /\
     datasets (on_motion s (InAxes xdata ydata)) = datasets s) /\
  (cur_rect cur <> Stale ->
   exists cur',
     current_roi (on_motion s Outside) = Some cur' /\
     cur_width cur' = cur_width cur /\
     (cur_rect cur = Live -> cur_rect cur' = Stale)) /\
  (cur_rect cur = Stale -> forall event, on_motion s event = s).
Proof.
  intros Hact Hcur. split; [|split].
  - intros Hlive.
    assert (Hin : on_motion s (InAxes xdata ydata)
                  = set_selection s true
                      (Some (mkPending (cur_x_min cur) (cur_y_min cur)
                               (Some (py_max 0.001 (xdata - cur_x_min cur))) Live))).
    { unfold on_motion. rewrite Hact, Hcur. simpl.
      destruct (cur_rect cur); [reflexivity | reflexivity | congruence]. }
    rewrite Hin. eexists. split; [reflexivity|]. unfold py_max. repeat split.
    + destruct (0.001 <? xdata - cur_x_min cur) eqn:E.
      * now apply ltb_leb.
      * reflexivity.
    + intros Hle. now rewrite (leb_not_ltb _ _ Hle).
  - intros Hlive. unfold on_motion. rewrite Hact, Hcur. simpl.
    destruct (cur_rect cur) eqn:Hrect; [| |congruence].
    + exists cur. rewrite Hcur. repeat split. congruence.
    + eexists. split; [reflexivity|]. split; reflexivity.
  - intros Hst event. eapply on_motion_stale; eauto.
Qed.

(** ** Result table and plot *)

Lemma filter_all {A : Type} (p : A -> bool) (l : list A) :
  (forall x, In x l -> p x = true) -> filter p l = l.
Proof.
  induction l as [|h t IH]; intros H; simpl; auto.
  rewrite (H h) by (now left). f_equal. apply IH. intros x Hx. apply H. now right.
Qed.

Lemma filter_length_lt {A : Type} (p : A -> bool) (l : list A) :
  (exists x, In x l /\ p x = false) -> (length (filter p l) < length l)%nat.
Proof.
  induction l as [|h t IH]; intros (x & Hin & Hx); [destruct Hin|].
  simpl. pose proof (filter_length_le p t) as Hle.
  destruct Hin as [->|Hin].
  - rewrite Hx. lia.
  - assert (Hlt : (length (filter p t) < length t)%nat) by (apply IH; eauto).
    destruct (p h); simpl; lia.
Qed.

(** The rows of the table when the results are those of the regions
    themselves. *)
Lemma table_lines_own (f : roi -> fit_result) (regions : list roi) (idx i : nat)
    (r : roi) :
  nth_error regions i = Some r ->
  nth_error (table_lines idx regions (map f regions)) i
  = Some (mkLine (idx + i + 1) (x_min r) (x_max r) (p_x0 (params (f r)))
                 (fwhm (f r)) (integral (f r)) (r_squared (f r)) (color r)).
Proof.
  revert idx i; induction regions as [|h t IH]; intros idx [|i] H;
    simpl in *; try discriminate.
  - injection H as ->. now rewrite Nat.add_0_r.
  - rewrite (IH (S idx) i H). do 2 f_equal. lia.
Qed.

(** The active dataset after a fit, for the readers of the display. *)
Lemma fit_peaks_dataset (s : XRDDataAnalyzer) (d : Dataset) (data : array2) :
  current_dataset s = Some d ->
  selected_regions d <> [] ->
  current_series d = Some data ->
  current_dataset (fst (fit_peaks s))
  = Some (set_fit_results d
            (map (result_of (column 0 data) (column 1 data))
                 (filter (has_samples (column 0 data)) (selected_regions d)))).
Proof.
  intros Hd Hne Hdata.
  rewrite (fit_peaks_current s d data Hd Hne Hdata).
  now rewrite fit_loop_map_filter.
Qed.

(** X12.  After a fit, the result table has one row per region with samples,
    and its i-th row shows the bounds and color of the i-th region of the
    list beside the values of the i-th result.  When every region has
    samples each row therefore shows a region with its own result; when the
    first region has no sample and the second has, the first row shows the
    bounds of the first region beside the result of the second. *)
Theorem result_table_after_fit
    (s : XRDDataAnalyzer) (d : Dataset) (data : array2) :
  current_dataset s = Some d ->
  selected_regions d <> [] ->
  current_series d = Some data ->
  let x := column 0 data in
  let y := column 1 data in
  let table := update_result_table (fst (fit_peaks s)) in
  fst table = length (filter (has_samples x) (selected_regions d)) /\
  snd table
  = table_lines 0 (selected_regions d)
      (map (result_of x y) (filter (has_samples x) (selected_regions d))) /\
  ((forall r, In r (selected_regions d) -> has_samples x r = true) ->
   forall i r,
     nth_error (selected_regions d) i = Some r ->
     nth_error (snd table) i
     = Some (mkLine (i + 1) (x_min r) (x_max r)
                    (p_x0 (params (result_of x y r))) (fwhm (result_of x y r))
                    (integral (result_of x y r)) (r_squared (result_of x y r))
                    (color r))) /\
  (forall r1 r2 rest,
     selected_regions d = r1 :: r2 :: rest ->
     has_samples x r1 = false ->
     has_samples x r2 = true ->
     nth_error (snd table) 0
     = Some (mkLine 1 (x_min r1) (x_max r1)
                    (p_x0 (params (result_of x y r2))) (fwhm (result_of x y r2))
                    (integral (result_of x y r2)) (r_squared (result_of x y r2))
                    (color r1))).
Proof.
  intros Hd Hne Hdata x y table.
  assert (Htable :
    table = (length (filter (has_samples x) (selected_regions d)),
             table_lines 0 (selected_regions d)
               (map (result_of x y) (filter (has_samples x) (selected_regions d))))).
  { unfold table, update_result_table.
    rewrite (fit_peaks_dataset s d data Hd Hne Hdata). simpl.
    fold x y.
    destruct (map (result_of x y) (filter (has_samples x) (selected_regions d)))
      as [|res rest] eqn:E.
    - apply (f_equal (@length _)) in E. rewrite length_map in E. rewrite E.
      destruct (selected_regions d); reflexivity.
    - rewrite <- E. now rewrite length_map. }
  rewrite Htable. simpl. repeat split.
  - intros Hall i r Hi. rewrite (filter_all _ _ Hall).
    now rewrite (table_lines_own (result_of x y) _ 0 i r Hi).
  - intros r1 r2 rest Hr H1 H2. rewrite Hr. simpl. now rewrite H1, H2.
Qed.

(** The item drawn for the k-th region. *)
Lemma plot_items_nth (results : list fit_result) (regions : list roi)
    (i k : nat) (r : roi) :
  nth_error regions k = Some r ->
  nth_error (plot_items i regions results) k
  = Some match nth_error results (i + k) with
         | Some result => FitCurve (i + k + 1) r result
         | None => RegionBox (i + k + 1) r
         end.
Proof.
  revert i k; induction regions as [|h t IH]; intros i [|k] H;
    simpl in *; try discriminate.
  - injection H as ->. now rewrite Nat.add_0_r.
  - rewrite (IH (S i) k H). now rewrite <- !Nat.add_succ_comm.
Qed.

(** X13.  After a fit, the plot draws the i-th region of the list as a fit
    curve with the i-th result as long as there are results, and the
    remaining regions as unfitted boxes.  When every region has samples each
    region is drawn with its own fit; as soon as one region has no sample,
    the last region of the list is drawn as an unfitted box, whether it was
    fitted or not. *)
Theorem plot_after_fit (s : XRDDataAnalyzer) (d : Dataset) (data : array2) :
  current_dataset s = Some d ->
  selected_regions d <> [] ->
  current_series d = Some data ->
  let x := column 0 data in
  let y := column 1 data in
  exists p,
    plot_data (fst (fit_peaks s)) = Some p /\
    plot_x p = x /\ plot_y p = y /\
    plot_regions p
    = plot_items 0 (selected_regions d)
        (map (result_of x y) (filter (has_samples x) (selected_regions d))) /\
    ((forall r, In r (selected_regions d) -> has_samples x r = true) ->
     forall i r,
       nth_error (selected_regions d) i = Some r ->
       nth_error (plot_regions p) i = Some (FitCurve (i + 1) r (result_of x y r))) /\
    ((exists r, In r (selected_regions d) /\ has_samples x r = false) ->
     forall r_last,
       nth_error (selected_regions d) (length (selected_regions d) - 1) = Some r_last ->
       nth_error (plot_regions p) (length (selected_regions d) - 1)
       = Some (RegionBox (length (selected_regions d)) r_last)).
Proof.
  intros Hd Hne Hdata x y. unfold plot_data.
  rewrite (fit_peaks_dataset s d data Hd Hne Hdata).
  unfold current_series in *. simpl. rewrite Hdata.
  eexists. split; [reflexivity|]. simpl. fold x y. repeat split.
  - intros Hall i r Hi. rewrite (plot_items_nth _ _ 0 i r Hi).
    rewrite (filter_all _ _ Hall). simpl.
    now rewrite nth_error_map, Hi.
  - intros Hex r_last Hlast.
    rewrite (plot_items_nth _ _ 0 _ r_last Hlast). simpl.
    apply filter_length_lt in Hex.
    assert (Hn : (0 < length (selected_regions d))%nat)
      by (destruct (selected_regions d); [congruence | simpl; lia]).
    replace (nth_error _ (length (selected_regions d) - 1)) with (@None fit_result).
    + do 2 f_equal. lia.
    + symmetry. apply nth_error_None. rewrite length_map. lia.
Qed.

(** ** Export *)

(** Without a failing [float()] the export loop writes the lines of the
    complete pairs. *)
Lemma export_pairs_lines (rows : list table_row) (acc : list (float * float * cell)) :
  (forall row, In row rows ->
               has_text (d_item row) = true -> has_text (e_item row) = true ->
               py_float (d_item row) <> None /\ py_float (e_item row) <> None) ->
  export_pairs rows acc = Some (acc ++ exported_lines rows).
Proof.
  revert acc; induction rows as [|row rest IH]; intros acc H; simpl.
  - now rewrite app_nil_r.
  - assert (Hrest : forall row', In row' rest ->
               has_text (d_item row') = true -> has_text (e_item row') = true ->
               py_float (d_item row') <> None /\ py_float (e_item row') <> None)
      by (intros row' Hin; apply H; now right).
    specialize (H row (or_introl eq_refl)).
    destruct (d_item row) as [| |t|d], (e_item row) as [| |t'|E]; simpl in *;
      try (now rewrite IH);
      try (destruct (H eq_refl eq_refl) as [H1 H2]; congruence).
    rewrite IH by assumption. now rewrite <- app_assoc.
Qed.

(** A row with text in both cells, one of which [float()] rejects, makes the
    export loop raise. *)
Lemma export_pairs_raises (rows : list table_row) (acc : list (float * float * cell)) :
  (exists row, In row rows /\
               has_text (d_item row) = true /\ has_text (e_item row) = true /\
               (py_float (d_item row) = None \/ py_float (e_item row) = None)) ->
  export_pairs rows acc = None.
Proof.
  revert acc; induction rows as [|row rest IH];
    intros acc (bad & Hin & Hd & He & Hbad); [destruct Hin|].
  simpl. destruct Hin as [->|Hin].
  - rewrite Hd, He. simpl.
    destruct (py_float (d_item bad)); [|reflexivity].
    destruct (py_float (e_item bad)); [|reflexivity].
    destruct Hbad; discriminate.
  - assert (Hrest : forall acc', export_pairs rest acc' = None)
      by (intros acc'; apply IH; eauto 8).
    destruct (has_text (d_item row) && has_text (e_item row)); auto.
    destruct (py_float (d_item row)); auto.
    destruct (py_float (e_item row)); auto.
Qed.

(** The exported lines carry the pairs the calibration uses. *)
Lemma exported_lines_pairs (rows : list table_row) :
  map fst (exported_lines rows) = complete_pairs rows.
Proof.
  unfold exported_lines, complete_pairs.
  induction rows as [|row rest IH]; simpl; auto.
  rewrite map_app, IH. f_equal.
  destruct (d_item row), (e_item row); reflexivity.
Qed.

(** X14.  The calibration export is refused with a warning until a 2theta
    calibration has completed.  Afterwards, with a file chosen, it writes the
    stored calibration and one line per complete pair of the table - the
    same pairs, in the same order, as the calibration reads - provided every
    row with text in both the d and the E cell holds numbers; a row with
    text in both cells that is not a number in one of them, which the
    calibration skips, makes the export fail and write nothing. *)
Theorem export_calibration_outcomes
    (s : XRDDataAnalyzer) (fname : string) (rows : list table_row) :
  (calibrated s = false ->
   export_calibration s fname rows
   = (MsgWarning "No calibration data available", None)) /\
  (calibrated s = true -> fname <> ""%string ->
   ((forall row, In row rows ->
                 has_text (d_item row) = true -> has_text (e_item row) = true ->
                 py_float (d_item row) <> None /\ py_float (e_item row) <> None) ->
    export_calibration s fname rows
    = (NoMessage, Some (mkCalibrationFile (calib_params s) (exported_lines rows))) /\
    map fst (exported_lines rows) = complete_pairs rows) /\
   ((exists row, In row rows /\
                 has_text (d_item row) = true /\ has_text (e_item row) = true /\
                 (py_float (d_item row) = None \/ py_float (e_item row) = None)) ->
    exists text, export_calibration s fname rows = (MsgCritical text, None))).
Proof.
  split.
  - intros Hc. unfold export_calibration. now rewrite Hc.
  - intros Hc Hf. apply String.eqb_neq in Hf.
    unfold export_calibration. rewrite Hc, Hf. simpl. split.
    + intros Hnum. rewrite (export_pairs_lines rows [] Hnum). simpl.
      split; [reflexivity | apply exported_lines_pairs].
    + intros Hbad. rewrite (export_pairs_raises rows [] Hbad). eauto.
Qed.

(** [np.column_stack] of the calibrated channels and the counts, row by
    row. *)
Lemma column_stack_rows (f : float -> float) (raw : array2) :
  column_stack (map f (column 0 raw)) (column 1 raw)
  = map (fun row => [f (nth 0 row nan); nth 1 row nan]) raw.
Proof.
  unfold column_stack, column.
  induction raw as [|row rest IH]; simpl; auto. now rewrite IH.
Qed.

(** X15.  From file to file: exporting right after an import writes the
    lines of the imported file except the last, with all their columns;
    exporting after an energy calibration writes, for each of these lines,
    the two entries [a*ch*ch + b*ch + c] and counts, and no further
    column. *)
Theorem import_calibrate_export
    (s : XRDDataAnalyzer) (fname out : string) (table : array2) (a b c : float) :
  rectangular table = true ->
  (2 <= ncols_of table)%nat -> (2 <= length table)%nat ->
  out <> ""%string ->
  export_data (fst (import_data s fname table)) out
  = (NoMessage, Some (removelast table)) /\
  export_data
    (fst (adjust_energy_axis (fst (import_data s fname table))
                             (Some a) (Some b) (Some c)))
    out
  = (NoMessage,
     Some (map (fun row =>
                  [a * (nth 0 row nan * nth 0 row nan) + b * nth 0 row nan + c;
                   nth 1 row nan])
               (removelast table))).
Proof.
  intros Hrect Hc Hl Hout. apply String.eqb_neq in Hout.
  rewrite (import_data_success s fname table Hrect Hc Hl). cbn [fst].
  assert (Hd : current_dataset (imported s fname table)
               = Some (Dataset_init (Some fname) (Some (removelast table))))
    by apply current_dataset_appended.
  split.
  - unfold export_data. rewrite Hd. simpl. now rewrite Hout.
  - rewrite (adjust_energy_axis_result _ _ (removelast table) a b c Hd eq_refl).
    unfold export_data. rewrite (current_dataset_set _ _ _ Hd). simpl.
    rewrite Hout. now rewrite column_stack_rows.
Qed.

(** ** Saved calibration table *)

Lemma save_calib_table_kept (rows : list text_row) (calib_data : list saved_row) :
  save_calib_table rows calib_data = calib_data ++ map saved_of (filter kept rows).
Proof.
  revert calib_data; induction rows as [|row rest IH]; intros calib_data; simpl.
  - now rewrite app_nil_r.
  - unfold kept, saved_of at 1.
    destruct (has_data _) eqn:E; rewrite IH.
    + simpl. now rewrite <- app_assoc.
    + reflexivity.
Qed.

Lemma set_items_blank (row : text_row) :
  set_items blank_row (saved_of row) = restored_row row.
Proof.
  unfold set_items, restored_row, shown_text, saved_of; simpl.
  destruct (text_of (d_text row)), (text_of (e_text row)),
    (text_of (remarks_text row)); reflexivity.
Qed.

Lemma fill_rows_blank (n : nat) (rows : list text_row) :
  (length rows <= n)%nat ->
  fill_rows (repeat blank_row n) (map saved_of rows)
  = map restored_row rows ++ repeat blank_row (n - length rows).
Proof.
  revert n; induction rows as [|row rest IH]; intros n Hn; simpl.
  - rewrite Nat.sub_0_r. now destruct n.
  - destruct n as [|n]; simpl in *; [lia|].
    rewrite set_items_blank, IH by lia. reflexivity.
Qed.

Lemma filter_length_le {A : Type} (p : A -> bool) (l : list A) :
  (length (filter p l) <= length l)%nat.
Proof.
  induction l as [|h t IH]; simpl; auto. destruct (p h); simpl; lia.
Qed.

Lemma read_cell_shown (float_of_text : string -> option float) (c : option string) :
  read_cell float_of_text (shown_text c)
  = match read_cell float_of_text c with
    | NoItem => Blank
    | seen => seen
    end.
Proof.
  unfold shown_text, text_of, read_cell.
  destruct c as [text|]; [|reflexivity].
  destruct (text =? "")%string eqn:E; [reflexivity|].
  rewrite E. now destruct (float_of_text text).
Qed.

Lemma read_cell_no_text (float_of_text : string -> option float) (c : option string) :
  text_of c = None ->
  read_cell float_of_text c = NoItem \/ read_cell float_of_text c = Blank.
Proof.
  unfold text_of, read_cell. destruct c as [text|]; auto.
  destruct (text =? "")%string; auto. discriminate.
Qed.

(** The lines exported from a row, and so the pair read from it, are those
    of the row as restored; a row that is not saved has none. *)
Lemma exported_lines_restored (float_of_text : string -> option float)
    (rows : list text_row) :
  exported_lines (map (read_row float_of_text) (map restored_row (filter kept rows)))
  = exported_lines (map (read_row float_of_text) rows).
Proof.
  unfold exported_lines.
  induction rows as [|row rest IH]; [reflexivity|].
  cbn [filter]. destruct (kept row) eqn:E.
  - cbn [map flat_map]. rewrite IH. f_equal.
    unfold read_row, restored_row; simpl.
    rewrite !read_cell_shown.
    destruct (read_cell float_of_text (d_text row)),
      (read_cell float_of_text (e_text row)),
      (read_cell float_of_text (remarks_text row)); reflexivity.
  - cbn [map flat_map]. rewrite IH.
    unfold kept, has_data, saved_of in E; simpl in E.
    destruct (text_of (d_text row)) eqn:Ed; [discriminate|].
    unfold read_row; simpl.
    destruct (read_cell_no_text float_of_text _ Ed) as [-> | ->]; reflexivity.
Qed.

Lemma exported_lines_app (rows rows' : list table_row) :
  exported_lines (rows ++ rows') = exported_lines rows ++ exported_lines rows'.
Proof. unfold exported_lines. apply flat_map_app. Qed.

Lemma exported_lines_blank (float_of_text : string -> option float) (n : nat) :
  exported_lines (map (read_row float_of_text) (repeat blank_row n)) = [].
Proof. induction n; simpl; auto. Qed.

(** X16.  Closing the window and starting again keeps the contents of the
    calibration table but not the positions of its rows: the rows that hold
    some text come back in their order at the top of the table (an empty
    cell of such a row as an empty item), the rows without any text are
    dropped, and blank rows fill the rest.  The pairs the 2theta calibration
    reads from the table, and the lines the calibration export writes, are
    the same before and after. *)
Theorem calibration_table_survives_restart
    (table fresh : list text_row) (float_of_text : string -> option float) :
  length fresh = length table ->
  let restored := restore_calib_table fresh (Some (save_calib_table table [])) in
  restored
  = map restored_row (filter kept table)
    ++ repeat blank_row (length table - length (filter kept table)) /\
  length restored = length table /\
  complete_pairs (map (read_row float_of_text) restored)
  = complete_pairs (map (read_row float_of_text) table) /\
  exported_lines (map (read_row float_of_text) restored)
  = exported_lines (map (read_row float_of_text) table).
Proof.
  intros Hlen restored.
  assert (Hr : restored
               = map restored_row (filter kept table)
                 ++ repeat blank_row (length table - length (filter kept table))).
  { unfold restored, restore_calib_table.
    rewrite save_calib_table_kept. simpl app.
    replace (map _ fresh) with (repeat blank_row (length table)).
    - apply fill_rows_blank, filter_length_le.
    - rewrite <- Hlen. clear. induction fresh; simpl; [|rewrite IHfresh]; reflexivity. }
  assert (He : exported_lines (map (read_row float_of_text) restored)
               = exported_lines (map (read_row float_of_text) table)).
  { rewrite Hr, map_app, exported_lines_app, exported_lines_blank, app_nil_r.
    apply exported_lines_restored. }
  split; [exact Hr|]. split; [|split; [|exact He]].
  - rewrite Hr, length_app, length_map, repeat_length.
    pose proof (filter_length_le kept table). lia.
  - rewrite <- !exported_lines_pairs. now rewrite He.
Qed.

(** ** Initial guess *)

Lemma select_filter {A : Type} (q : A -> bool) (l : list A) :
  select (map q l) l = filter q l.
Proof.
  unfold select. induction l as [|h t IH]; simpl; auto.
  destruct (q h); simpl; now rewrite IH.
Qed.

Lemma select_column (k : nat) (q : list float -> bool) (data : array2) :
  select (map q data) (column k data) = column k (filter q data).
Proof.
  unfold select, column. induction data as [|h t IH]; simpl; auto.
  destruct (q h); simpl; now rewrite IH.
Qed.

Lemma argmax_from_bound (l : array1) (mp : float) (mi i : nat) :
  (mi < i)%nat -> (argmax_from mp mi i l < i + length l)%nat.
Proof.
  revert mp mi i; induction l as [|x rest IH]; intros mp mi i Hlt; simpl.
  - lia.
  - destruct (is_nan mp); [lia|].
    destruct (negb (x <=? mp)).
    + specialize (IH x i (S i)). lia.
    + specialize (IH mp mi (S i)). lia.
Qed.

Lemma np_argmax_bound (l : array1) : l <> [] -> (np_argmax l < length l)%nat.
Proof.
  destruct l as [|x rest]; [congruence|]. intros _. simpl.
  pose proof (argmax_from_bound rest x 0 1). lia.
Qed.

Lemma nth_column (k i : nat) (data : array2) :
  (i < length data)%nat ->
  nth i (column k data) nan = nth k (nth i data []) nan.
Proof.
  intros Hi. unfold column.
  rewrite (nth_indep _ nan (nth k [] nan)) by now rewrite length_map.
  apply (map_nth (fun row => nth k row nan)).
Qed.

(** X17.  For a region with samples the initial guess handed to the solver
    is a measured point of the region: its center and height are the two
    entries of one row of the series, and the center lies within the bounds
    of the region, so the guess satisfies the solver's box constraint on the
    center. *)
Theorem initial_guess_is_a_sample (data : array2) (r : roi) :
  has_samples (column 0 data) r = true ->
  let mask := map (in_roi r) (column 0 data) in
  let p0 := initial_guess r (select mask (column 0 data)) (select mask (column 1 data)) in
  (exists row, In row data /\ nth 0 row nan = p_x0 p0 /\ nth 1 row nan = p_a p0) /\
  (p_x0 (fst (fit_bounds r)) <=? p_x0 p0) = true /\
  (p_x0 p0 <=? p_x0 (snd (fit_bounds r))) = true.
Proof.
  intros Hs mask p0.
  set (q := fun row : list float => in_roi r (nth 0 row nan)).
  assert (Hmask : mask = map q data)
    by (unfold mask, column; now rewrite map_map).
  set (rows := filter q data).
  assert (Hne : rows <> []).
  { unfold has_samples, np_any in Hs. fold mask in Hs. rewrite Hmask in Hs.
    apply existsb_exists in Hs. destruct Hs as (b & Hin & Hb). subst b.
    apply in_map_iff in Hin. destruct Hin as (row & Hq & Hin).
    intros Hnil.
    assert (Hrow : In row rows) by (apply filter_In; auto).
    rewrite Hnil in Hrow. destruct Hrow. }
  assert (Hx : select mask (column 0 data) = column 0 rows)
    by (rewrite Hmask; apply select_column).
  assert (Hy : select mask (column 1 data) = column 1 rows)
    by (rewrite Hmask; apply select_column).
  set (k := np_argmax (column 1 rows)).
  assert (Hk : (k < length rows)%nat).
  { unfold k. replace (length rows) with (length (column 1 rows))
      by (unfold column; apply length_map).
    apply np_argmax_bound. unfold column. destruct rows; [congruence|discriminate]. }
  assert (Hin : In (nth k rows []) rows) by now apply nth_In.
  apply filter_In in Hin. destruct Hin as [Hin Hq].
  assert (Hx0 : p_x0 p0 = nth 0 (nth k rows []) nan).
  { unfold p0, initial_guess. simpl. rewrite Hx, Hy. now apply nth_column. }
  assert (Ha : p_a p0 = nth 1 (nth k rows []) nan).
  { unfold p0, initial_guess. simpl. rewrite Hy. now apply nth_column. }
  split.
  - exists (nth k rows []). now rewrite Hx0, Ha.
  - rewrite Hx0. simpl. unfold q, in_roi in Hq.
    now apply andb_true_iff in Hq.
Qed.

End Core.

(** * The statements on the sample inputs *)

(** C1 on the sample dataset with [E = 0.5*Ch**2 + 2*Ch + 1]. *)
Lemma adjust_energy_axis_formula_sample :
  current_dataset sample_analyzer = Some sample_dataset /\
  raw_data sample_dataset = Some sample_raw /\
  exists d' adj,
    current_dataset
      (fst (adjust_energy_axis sample_analyzer (Some 0.5) (Some 2) (Some 1)))
    = Some d' /\
    adjusted_data d' = Some adj /\
    column 0 adj = map (fun ch => 0.5 * (ch * ch) + 2 * ch + 1) (column 0 sample_raw) /\
    column 1 adj = column 1 sample_raw.
Proof.
  split; [reflexivity|]. split; [reflexivity|].
  apply (adjust_energy_axis_formula sample_analyzer sample_dataset sample_raw);
    reflexivity.
Defined.

(** C2 on the sample analyzer holding two regions. *)
Lemma adjust_energy_axis_clears_sample :
  (exists d, current_dataset sample_two_regions = Some d /\
             raw_data d = Some sample_raw /\
             length (selected_regions d) = 2%nat) /\
  exists d',
    current_dataset
      (fst (adjust_energy_axis sample_two_regions (Some 0.5) (Some 2) (Some 1)))
    = Some d' /\
    selected_regions d' = [] /\
    fit_results d' = [] /\
    x_axis_adjusted d' = true.
Proof.
  split.
  - eexists. repeat split; reflexivity.
  - eapply (adjust_energy_axis_clears sample_two_regions _ sample_raw);
      reflexivity.
Defined.

(** C3 as stated fails on a table holding the complete pair (0, 5.9): the
    division raises and the calibration ends in the critical message,
    without any result. *)
Lemma calibrate_2theta_zero_spacing :
  complete_pairs zero_spacing_rows = [(0, 5.9)] /\
  forall (lib : Library) (s : XRDDataAnalyzer),
    calibrate_2theta s zero_spacing_rows
    = (s, MsgCritical "Calibration failed: float division by zero").
Proof.
  split; [reflexivity|]. intros lib s. reflexivity.
Defined.

(** C3 (amended) on the table whose only complete pair is (2.1065, 5.9). *)
Lemma calibrate_2theta_mean_std_sample :
  complete_pairs sample_rows = [(2.1065, 5.9)] /\
  (2 * 2.1065 * 5.9 =? 0) = false /\
  forall (lib : Library) (s : XRDDataAnalyzer),
    let theta := 2 * np_degrees (np_arcsin (12.39842 / (2 * 2.1065 * 5.9))) in
    let mean := np_sum [theta] / 1 in
    calibrate_2theta s sample_rows
    = (mkAnalyzer (datasets s) (current_dataset_index s)
         (Some (mkCalibration mean
                  (sqrt (np_sum [(theta - mean) * (theta - mean)] / 1))
                  12.39842 1))
         true (region_selection_active s) (current_roi s),
       NoMessage).
Proof.
  split; [reflexivity|]. split; [reflexivity|]. intros lib s.
  apply (calibrate_2theta_mean_std s sample_rows).
  - discriminate.
  - intros d E [H|[]]. injection H as <- <-. reflexivity.
Defined.

(** C4 as stated fails on the complete pair (1, 1), for which
    [hc/(2*d*E) = 6.19921 > 1]: the calibration completes. *)
Lemma calibrate_2theta_no_domain_check :
  complete_pairs out_of_domain_rows = [(1, 1)] /\
  (1 <? HC_KEV_ANGSTROM / (2 * 1 * 1)) = true /\
  forall (lib : Library) (s : XRDDataAnalyzer),
    snd (calibrate_2theta s out_of_domain_rows) = NoMessage /\
    calibrated (fst (calibrate_2theta s out_of_domain_rows)) = true.
Proof.
  split; [reflexivity|]. split; [reflexivity|]. intros lib s.
  split; reflexivity.
Defined.

(** C4 (amended) on a table without complete pair, on the table with a zero
    spacing and on the pair outside the arcsine domain. *)
Lemma calibrate_2theta_outcomes_sample :
  complete_pairs incomplete_rows = [] /\
  forall (lib : Library) (s : XRDDataAnalyzer),
    calibrate_2theta s incomplete_rows
    = (s, MsgWarning "Need at least 1 d-E pair for calibration") /\
    calibrate_2theta s zero_spacing_rows
    = (s, MsgCritical "Calibration failed: float division by zero") /\
    snd (calibrate_2theta s out_of_domain_rows) = NoMessage /\
    calibrated (fst (calibrate_2theta s out_of_domain_rows)) = true.
Proof.
  split; [reflexivity|]. intros lib s. split; [|split].
  - apply (proj1 (calibrate_2theta_outcomes s incomplete_rows)). reflexivity.
  - apply (proj1 (proj2 (calibrate_2theta_outcomes s zero_spacing_rows))).
    exists 0, 5.9. split; [now left | reflexivity].
  - apply (proj2 (proj2 (calibrate_2theta_outcomes s out_of_domain_rows))).
    + discriminate.
    + intros d E [H|[]]. injection H as <- <-. reflexivity.
Defined.

(** C5 on the sample series, the region from 1.5 to 3.5 and a solver that
    raises: the placeholder holds the initial guess (peak 30 at x = 2, width
    2/6, baseline 20). *)
Lemma fit_failure_placeholder_sample :
  has_samples [1; 2; 3; 4] sample_region = true /\
  forall lib : Library,
    @fit_loop (@failing_solver lib) [1; 2; 3; 4] [10; 30; 20; 5] [sample_region] []
    = [mkFit (mkParams 30 2 ((3.5 - 1.5) / 6) 0 20) (repeat (repeat 0 5) 5) 0 0 0].
Proof.
  split; [reflexivity|]. intros lib.
  apply (proj1 (@fit_failure_placeholder (@failing_solver lib)
                  [1; 2; 3; 4] [10; 30; 20; 5] [] [] sample_region
                  eq_refl eq_refl)).
Defined.

(** C6 on the sample analyzer: the region from 1.2 to 1.8 holds no sample,
    and the one result of the fit belongs to the second region. *)
Lemma fit_skips_empty_region_sample :
  (exists d,
     current_dataset sample_two_regions = Some d /\
     current_series d = Some sample_raw /\
     selected_regions d = [] ++ sample_empty_region :: [new_region 1.5 3.5 1]) /\
  (forall x, In x (column 0 sample_raw) ->
             (x_min sample_empty_region <=? x) && (x <=? x_max sample_empty_region)
             = false) /\
  forall lib : Library,
  exists d',
    current_dataset (fst (fit_peaks sample_two_regions)) = Some d' /\
    selected_regions d' = [] ++ sample_empty_region :: [new_region 1.5 3.5 1] /\
    fit_results d'
    = fit_loop (column 0 sample_raw) (column 1 sample_raw) [] []
      ++ fit_loop (column 0 sample_raw) (column 1 sample_raw)
                  [new_region 1.5 3.5 1] [] /\
    (length (fit_results d') < length (selected_regions d'))%nat.
Proof.
  assert (Hnone : forall x, In x (column 0 sample_raw) ->
             (x_min sample_empty_region <=? x) && (x <=? x_max sample_empty_region)
             = false).
  { intros x [<-|[<-|[<-|[<-|[]]]]]; reflexivity. }
  split; [|split; [exact Hnone|]].
  - eexists. repeat split; reflexivity.
  - intros lib.
    eapply (@fit_skips_empty_region lib sample_two_regions _ sample_raw
              [] [new_region 1.5 3.5 1] sample_empty_region);
      try reflexivity. exact Hnone.
Defined.

(** C7 on the drag started at 1.5: after a move to 2.5 and a move out of the
    axes the handle in the drag is a removed one, and the release at 3.5,
    two units from the start, creates no region and keeps the drag. *)
Lemma on_release_stale_handle_sample :
  region_selection_active sample_dragging = true /\
  current_roi sample_dragging = Some (mkPending 1.5 0 None NoRect) /\
  (abs (3.5 - 1.5) <=? 0.001) = false /\
  is_nan (3.5 - 1.5) = false /\
  on_release (on_motion (on_motion sample_dragging (InAxes 2.5 0)) Outside)
             (InAxes 3.5 0) Drawn
  = on_motion (on_motion sample_dragging (InAxes 2.5 0)) Outside /\
  datasets (on_motion (on_motion sample_dragging (InAxes 2.5 0)) Outside)
  = datasets sample_dragging /\
  current_roi (on_motion (on_motion sample_dragging (InAxes 2.5 0)) Outside)
  = Some (mkPending 1.5 0 (Some 1) Stale).
Proof.
  split; [reflexivity|]. split; [reflexivity|]. split; [reflexivity|].
  split; [reflexivity|].
  destruct (on_release_stale_handle sample_dragging (mkPending 1.5 0 None NoRect)
              2.5 0 3.5 0 Drawn eq_refl eq_refl ltac:(discriminate) eq_refl eq_refl)
    as (Hsame & Hdata & _).
  split; [exact Hsame|]. split; [exact Hdata | reflexivity].
Defined.

(** X18 on the drag started at 1.5: a release at 1.5005 creates nothing, a
    release at 3.5 appends the region from 1.5 to 3.5, of width 2 and of the
    first palette color. *)
Lemma on_release_commit_live_sample :
  current_roi sample_dragging = Some (mkPending 1.5 0 None NoRect) /\
  (abs (1.5005 - 1.5) <=? 0.001) = true /\
  datasets (on_release sample_dragging (InAxes 1.5005 0) Drawn)
  = datasets sample_dragging /\
  (abs (3.5 - 1.5) <=? 0.001) = false /\
  exists r,
    current_dataset (on_release sample_dragging (InAxes 3.5 0) Drawn)
    = Some (set_regions sample_dataset (selected_regions sample_dataset ++ [r])) /\
    x_min r = py_min 1.5 3.5 /\
    x_max r = py_max 1.5 3.5 /\
    width r = x_max r - x_min r /\
    color r = nth (length (selected_regions sample_dataset) mod 10) colors ""%string.
Proof.
  split; [reflexivity|]. split; [reflexivity|]. split; [|split; [reflexivity|]].
  - apply (proj1 (on_release_commit_live sample_dragging
                    (mkPending 1.5 0 None NoRect) 1.5005 0 Drawn eq_refl)).
    reflexivity.
  - apply (proj2 (on_release_commit_live sample_dragging
                    (mkPending 1.5 0 None NoRect) 3.5 0 Drawn eq_refl)
             sample_dataset); try reflexivity.
    discriminate.
Defined.

(** C8 on the five-line sample file, whose first four lines are stored, and
    on a one-line file, which is refused. *)
Lemma import_data_truncates_sample :
  rectangular sample_table = true /\
  length (removelast [[1; 2]]) = 0%nat /\
  import_fails sample_analyzer (import_data sample_analyzer "one_line.txt" [[1; 2]]) /\
  snd (import_data analyzer_init "spectrum.txt" sample_table) Drawn = NoMessage /\
  (exists text,
      snd (import_data analyzer_init "spectrum.txt" sample_table) DrawingRaises
      = MsgCritical text) /\
  exists d,
    datasets sample_analyzer = datasets analyzer_init ++ [d] /\
    current_dataset sample_analyzer = Some d /\
    raw_data d = Some (removelast sample_table) /\
    adjusted_data d = Some (removelast sample_table) /\
    x_axis_adjusted d = false /\
    selected_regions d = [] /\
    fit_results d = [].
Proof.
  split; [reflexivity|]. split; [reflexivity|]. split; [|split; [|split]].
  - apply (proj1 (import_data_truncates sample_analyzer "one_line.txt" [[1; 2]])).
    right. reflexivity.
  - apply (proj2 (proj2 (import_data_truncates analyzer_init "spectrum.txt"
                           sample_table)));
      [reflexivity | vm_compute; lia | vm_compute; lia].
  - apply (proj2 (proj2 (import_data_truncates analyzer_init "spectrum.txt"
                           sample_table)));
      [reflexivity | vm_compute; lia | vm_compute; lia].
  - apply (proj1 (proj2 (import_data_truncates analyzer_init "spectrum.txt"
                           sample_table)) Drawn).
    reflexivity.
Defined.

(** C9 as stated fails on the sample analyzer: the energy calibration
    empties the two regions of the active dataset, which is neither the
    adjusted series nor the [x_axis_adjusted] flag. *)
Lemma adjust_energy_axis_writes_regions :
  exists d d',
    current_dataset sample_two_regions = Some d /\
    current_dataset
      (fst (adjust_energy_axis sample_two_regions (Some 0.5) (Some 2) (Some 1)))
    = Some d' /\
    length (selected_regions d) = 2%nat /\
    length (selected_regions d') = 0%nat /\
    selected_regions d' <> selected_regions d.
Proof.
  eexists. eexists. split; [reflexivity|]. split; [reflexivity|].
  split; [reflexivity|]. split; [reflexivity|]. discriminate.
Defined.

(** C9 (amended) on the sample analyzer: a fit leaves its raw series as it
    was, and so does a sequence with a fit, a calibration, a second import
    and a clearing, which only adds the raw series of the new dataset; the
    calibration leaves the file name and the raw series and writes the three
    other parts of the dataset. *)
Lemma raw_data_never_modified_sample :
  is_import OpFit = false /\
  exists d,
    current_dataset sample_two_regions = Some d /\
    raw_data d = Some sample_raw /\
    forall lib : Library,
      map raw_data (datasets (step sample_two_regions OpFit))
      = map raw_data (datasets sample_two_regions) /\
      (exists imported,
        map raw_data
            (datasets (run sample_two_regions
                           [OpFit; OpAdjustEnergy (Some 0.5) (Some 2) (Some 1);
                            OpImport "second.txt" sample_table; OpClearAll]))
        = map raw_data (datasets sample_two_regions) ++ imported) /\
      current_dataset
        (fst (adjust_energy_axis sample_two_regions (Some 0.5) (Some 2) (Some 1)))
      = Some (mkDataset (filename d) (Some sample_raw)
                (Some (column_stack (map (energy 0.5 2 1) (column 0 sample_raw))
                                    (column 1 sample_raw)))
                [] [] true).
Proof.
  split; [reflexivity|]. eexists. split; [reflexivity|]. split; [reflexivity|].
  intros lib. split; [|split].
  - apply (proj1 (raw_data_never_modified sample_two_regions)). reflexivity.
  - apply (proj1 (proj2 (raw_data_never_modified sample_two_regions))).
  - apply (proj2 (proj2 (proj2 (raw_data_never_modified sample_two_regions)))
             _ sample_raw 0.5 2 1); reflexivity.
Defined.

(** C10 on the sample analyzer: after the fit, the one result is that of the
    second region, the only one with samples. *)
Lemma fit_results_follow_regions_sample :
  exists d,
    current_dataset sample_two_regions = Some d /\
    selected_regions d <> [] /\
    current_series d = Some sample_raw /\
    forall lib : Library,
    exists d',
      current_dataset (fst (fit_peaks sample_two_regions)) = Some d' /\
      selected_regions d' = selected_regions d /\
      fit_results d'
      = map (result_of (column 0 sample_raw) (column 1 sample_raw))
            (filter (has_samples (column 0 sample_raw)) (selected_regions d)).
Proof.
  eexists. split; [reflexivity|]. split; [discriminate|]. split; [reflexivity|].
  intros lib.
  apply (proj2 (@fit_results_follow_regions lib) sample_two_regions _ sample_raw);
    [reflexivity | discriminate | reflexivity].
Defined.

(** X1 on the analyzer with two datasets, the second active: no action
    changes the first. *)
Lemma handlers_write_active_dataset_only_sample :
  (0 < length (datasets sample_two_datasets))%nat /\
  0%nat <> Z.to_nat (current_dataset_index sample_two_datasets) /\
  forall (lib : Library) (o : op),
    nth_error (datasets (step sample_two_datasets o)) 0
    = nth_error (datasets sample_two_datasets) 0.
Proof.
  split; [vm_compute; lia|]. split; [vm_compute; discriminate|].
  intros lib o.
  apply handlers_write_active_dataset_only; [vm_compute; lia | vm_compute; discriminate].
Defined.

(** X5 on the analyzer after the import of the sample file. *)
Lemma datasets_keep_their_shape_sample :
  current_dataset sample_analyzer = Some sample_dataset /\
  forall lib : Library,
  exists data,
    current_series sample_dataset = Some data /\ data <> [] /\
    Forall (fun row => (2 <= length row)%nat) data.
Proof.
  split; [reflexivity|]. intros lib.
  apply (proj2 (@datasets_keep_their_shape lib [OpImport "spectrum.txt" sample_table])).
  reflexivity.
Defined.

(** X6 on the sample analyzer: a fit leaves the calibration alone, and a
    calibration on a table without complete pair leaves the analyzer as it
    was. *)
Lemma calibration_is_independent_sample :
  is_calibrate OpFit = false /\
  forall lib : Library,
    (calib_params (step sample_two_regions OpFit) = calib_params sample_two_regions /\
     calibrated (step sample_two_regions OpFit) = calibrated sample_two_regions) /\
    snd (calibrate_2theta sample_two_regions incomplete_rows) <> NoMessage /\
    fst (calibrate_2theta sample_two_regions incomplete_rows) = sample_two_regions.
Proof.
  split; [reflexivity|]. intros lib.
  assert (Hmsg : snd (calibrate_2theta sample_two_regions incomplete_rows) <> NoMessage)
    by (simpl; discriminate).
  split; [|split; [exact Hmsg|]].
  - apply (proj1 (calibration_is_independent sample_two_regions)). reflexivity.
  - apply (proj2 (proj2 (calibration_is_independent sample_two_regions))).
    exact Hmsg.
Defined.

(** X7 on the sample analyzer with two regions. *)
Lemma fit_peaks_rebuilds_sample :
  exists d,
    current_dataset sample_two_regions = Some d /\
    selected_regions d <> [] /\
    current_series d = Some sample_raw /\
    forall (lib : Library) (previous : list fit_result),
      fst (fit_peaks (set_current_dataset sample_two_regions
                                          (set_fit_results d previous)))
      = fst (fit_peaks sample_two_regions).
Proof.
  eexists. split; [reflexivity|]. split; [discriminate|]. split; [reflexivity|].
  intros lib previous.
  apply (proj1 (@fit_peaks_rebuilds lib sample_two_regions) _ sample_raw previous);
    [reflexivity | discriminate | reflexivity].
Defined.

(** X9 on the sample analyzer with two regions, after an energy
    calibration. *)
Lemma fit_after_clearing_warns_sample :
  snd (adjust_energy_axis sample_two_regions (Some 0.5) (Some 2) (Some 1)) = NoMessage /\
  forall lib : Library,
    fit_peaks (fst (adjust_energy_axis sample_two_regions (Some 0.5) (Some 2) (Some 1)))
    = (fst (adjust_energy_axis sample_two_regions (Some 0.5) (Some 2) (Some 1)),
       MsgWarning "No regions selected for fitting").
Proof.
  split; [reflexivity|]. intros lib.
  apply (proj2 (@fit_after_clearing_warns lib sample_two_regions)). reflexivity.
Defined.

(** X10 on the drag started at 1.5: a release at 1.5005 ends the drag; the
    release at 3.5 creates a region and leaves the selection mode, after
    which a further drag changes nothing; when its redraw raises, the
    selection mode stays on. *)
Lemma one_region_per_selection_sample :
  region_selection_active sample_dragging = true /\
  current_roi sample_dragging = Some (mkPending 1.5 0 None NoRect) /\
  datasets (on_release sample_dragging (InAxes 3.5 0) Drawn)
  <> datasets sample_dragging /\
  datasets (on_release sample_dragging (InAxes 3.5 0) DrawingRaises)
  <> datasets sample_dragging /\
  forall lib : Library,
    current_roi (on_release sample_dragging (InAxes 1.5005 0) Drawn) = None /\
    region_selection_active (on_release sample_dragging (InAxes 3.5 0) Drawn) = false /\
    run (on_release sample_dragging (InAxes 3.5 0) Drawn)
        [OpPress (InAxes 1 0); OpMotion (InAxes 2 0); OpRelease (InAxes 4 0) Drawn]
    = on_release sample_dragging (InAxes 3.5 0) Drawn /\
    region_selection_active (on_release sample_dragging (InAxes 3.5 0) DrawingRaises)
    = true.
Proof.
  assert (Hnew : datasets (on_release sample_dragging (InAxes 3.5 0) Drawn)
                 <> datasets sample_dragging)
    by (vm_compute; discriminate).
  assert (Hnew' : datasets (on_release sample_dragging (InAxes 3.5 0) DrawingRaises)
                  <> datasets sample_dragging)
    by (vm_compute; discriminate).
  split; [reflexivity|]. split; [reflexivity|].
  split; [exact Hnew|]. split; [exact Hnew'|]. intros lib.
  split; [|split; [|split]].
  - apply (proj1 (@one_region_per_selection lib sample_dragging (InAxes 1.5005 0))
             (mkPending 1.5 0 None NoRect) eq_refl eq_refl).
    discriminate.
  - apply (proj1 (proj2 (@one_region_per_selection lib sample_dragging (InAxes 3.5 0)))
             Hnew).
  - apply (proj1 (proj2 (@one_region_per_selection lib sample_dragging (InAxes 3.5 0)))
             Hnew).
    repeat constructor.
  - apply (proj2 (proj2 (@one_region_per_selection lib sample_dragging (InAxes 3.5 0)))
             Hnew').
Defined.

(** X11 on the drag started at 1.5: a move to x = 1 records the width
    0.001; after a move out of the axes, a move to x = 3 changes nothing. *)
Lemma on_motion_width_sample :
  region_selection_active sample_dragging = true /\
  current_roi sample_dragging = Some (mkPending 1.5 0 None NoRect) /\
  (exists w,
    current_roi (on_motion sample_dragging (InAxes 1 0))
    = Some (mkPending 1.5 0 (Some w) Live) /\
    (0.001 <=? w) = true /\
    ((1 - 1.5 <=? 0.001) = true -> w = 0.001) /\
    datasets (on_motion sample_dragging (InAxes 1 0)) = datasets sample_dragging) /\
  current_roi (on_motion (on_motion sample_dragging (InAxes 1 0)) Outside)
  = Some (mkPending 1.5 0 (Some 0.001) Stale) /\
  on_motion (on_motion (on_motion sample_dragging (InAxes 1 0)) Outside) (InAxes 3 0)
  = on_motion (on_motion sample_dragging (InAxes 1 0)) Outside.
Proof.
  split; [reflexivity|]. split; [reflexivity|]. split; [|split; [reflexivity|]].
  - apply (proj1 (on_motion_width sample_dragging (mkPending 1.5 0 None NoRect) 1 0
                    eq_refl eq_refl)).
    discriminate.
  - apply (proj2 (proj2 (on_motion_width
                           (on_motion (on_motion sample_dragging (InAxes 1 0)) Outside)
                           (mkPending 1.5 0 (Some 0.001) Stale) 3 0
                           eq_refl eq_refl))
             eq_refl).
Defined.

(** X12 on the sample analyzer, whose first region holds no sample: the one
    row of the table shows the bounds of the first region beside the result
    of the second. *)
Lemma result_table_after_fit_sample :
  exists d r1 r2,
    current_dataset sample_two_regions = Some d /\
    selected_regions d = [r1; r2] /\
    current_series d = Some sample_raw /\
    has_samples (column 0 sample_raw) r1 = false /\
    has_samples (column 0 sample_raw) r2 = true /\
    forall lib : Library,
      let x := column 0 sample_raw in
      let y := column 1 sample_raw in
      let table := update_result_table (fst (fit_peaks sample_two_regions)) in
      fst table = 1%nat /\
      nth_error (snd table) 0
      = Some (mkLine 1 (x_min r1) (x_max r1)
                     (p_x0 (params (result_of x y r2))) (fwhm (result_of x y r2))
                     (integral (result_of x y r2)) (r_squared (result_of x y r2))
                     (color r1)).
Proof.
  eexists. eexists. eexists.
  split; [reflexivity|]. split; [reflexivity|]. split; [reflexivity|].
  split; [reflexivity|]. split; [reflexivity|].
  intros lib x y table.
  destruct (@result_table_after_fit lib sample_two_regions _ sample_raw
              eq_refl ltac:(discriminate) eq_refl)
    as (Hcount & _ & _ & Hshift).
  split; [exact Hcount|].
  apply (Hshift _ _ [] eq_refl); reflexivity.
Defined.

(** X13 on the sample analyzer: the second region, the only one fitted, is
    drawn as an unfitted box. *)
Lemma plot_after_fit_sample :
  exists d r1 r2,
    current_dataset sample_two_regions = Some d /\
    selected_regions d = [r1; r2] /\
    current_series d = Some sample_raw /\
    has_samples (column 0 sample_raw) r1 = false /\
    forall lib : Library,
    exists p,
      plot_data (fst (fit_peaks sample_two_regions)) = Some p /\
      nth_error (plot_regions p) 1 = Some (RegionBox 2 r2).
Proof.
  eexists. eexists. eexists.
  split; [reflexivity|]. split; [reflexivity|]. split; [reflexivity|].
  split; [reflexivity|].
  intros lib.
  destruct (@plot_after_fit lib sample_two_regions _ sample_raw
              eq_refl ltac:(discriminate) eq_refl)
    as (p & Hp & _ & _ & _ & _ & Hlast).
  exists p. split; [exact Hp|].
  apply (Hlast (ex_intro _ _ (conj (or_introl eq_refl) eq_refl)) _ eq_refl).
Defined.

(** X14 on the sample tables: after a calibration on a table with a
    non-numeric d, which the calibration skips, the export fails; on the
    table whose complete rows are numeric it writes the two pairs. *)
Lemma export_calibration_outcomes_sample :
  complete_pairs sample_rows = [(2.1065, 5.9)] /\
  forall lib : Library,
    let s := fst (calibrate_2theta sample_analyzer sample_rows) in
    calibrated s = true /\
    export_calibration sample_analyzer "cal.txt" numeric_rows
    = (MsgWarning "No calibration data available", None) /\
    (exists text, export_calibration s "cal.txt" sample_rows = (MsgCritical text, None)) /\
    export_calibration s "cal.txt" numeric_rows
    = (NoMessage,
       Some (mkCalibrationFile (calib_params s)
               [(2.1065, 5.9, NonNumeric "MgO_200"); (1.4895, 8.2, Blank)])).
Proof.
  split; [reflexivity|]. intros lib s.
  split; [reflexivity|]. split; [|split].
  - apply (proj1 (export_calibration_outcomes sample_analyzer "cal.txt" numeric_rows)).
    reflexivity.
  - apply (proj2 (export_calibration_outcomes s "cal.txt" sample_rows)
             eq_refl ltac:(discriminate)).
    exists (mkRow (NonNumeric "abc") (Number 2) NoItem).
    split; [simpl; tauto|]. split; [reflexivity|]. split; [reflexivity|].
    left. reflexivity.
  - apply (proj2 (export_calibration_outcomes s "cal.txt" numeric_rows)
             eq_refl ltac:(discriminate)).
    intros row [<-|[<-|[<-|[]]]]; simpl; intros; try discriminate;
      split; discriminate.
Defined.

(** X15 on the five-line sample file and [E = 0.5*Ch**2 + 2*Ch + 1]. *)
Lemma import_calibrate_export_sample :
  rectangular sample_table = true /\
  (2 <= ncols_of sample_table)%nat /\
  (2 <= length sample_table)%nat /\
  export_data (fst (import_data analyzer_init "spectrum.txt" sample_table)) "out.txt"
  = (NoMessage, Some sample_raw) /\
  export_data
    (fst (adjust_energy_axis
            (fst (import_data analyzer_init "spectrum.txt" sample_table))
            (Some 0.5) (Some 2) (Some 1)))
    "out.txt"
  = (NoMessage,
     Some (map (fun row =>
                  [0.5 * (nth 0 row nan * nth 0 row nan) + 2 * nth 0 row nan + 1;
                   nth 1 row nan])
               sample_raw)).
Proof.
  split; [reflexivity|]. split; [vm_compute; lia|]. split; [vm_compute; lia|].
  apply (import_calibrate_export analyzer_init "spectrum.txt" "out.txt" sample_table
           0.5 2 1);
    [reflexivity | vm_compute; lia | vm_compute; lia | discriminate].
Defined.

(** X16 on the sample table and the table of a new window: the two rows with
    text come back as the first two rows, the emptied first row is gone. *)
Lemma calibration_table_survives_restart_sample :
  length default_calib_table = length sample_calib_table /\
  restore_calib_table default_calib_table (Some (save_calib_table sample_calib_table []))
  = [mkTextRow (Some "1.4895"%string) (Some "8.2"%string) (Some "MgO_220"%string);
     mkTextRow (Some "2.1065"%string) (Some "5.9"%string) (Some ""%string)]
    ++ repeat blank_row 7 /\
  forall float_of_text : string -> option float,
    complete_pairs
      (map (read_row float_of_text)
           (restore_calib_table default_calib_table
                                (Some (save_calib_table sample_calib_table []))))
    = complete_pairs (map (read_row float_of_text) sample_calib_table).
Proof.
  split; [reflexivity|]. split.
  - apply (proj1 (calibration_table_survives_restart sample_calib_table
                    default_calib_table (fun _ => None) eq_refl)).
  - intros float_of_text.
    apply (proj1 (proj2 (proj2 (calibration_table_survives_restart sample_calib_table
                    default_calib_table float_of_text eq_refl)))).
Defined.

(** X17 on the sample series and the region from 1.5 to 3.5: the guess is
    the sample (2, 30). *)
Lemma initial_guess_sample :
  has_samples (column 0 sample_raw) sample_region = true /\
  (exists row, In row sample_raw /\ nth 0 row nan = 2 /\ nth 1 row nan = 30) /\
  (1.5 <=? 2) = true /\ (2 <=? 3.5) = true.
Proof.
  split; [reflexivity|].
  apply (initial_guess_is_a_sample sample_raw sample_region). reflexivity.
Defined.
